(** * Emotional TTS post-processing: a shallow embedding of
      [TTS/CTTS.py] and of the generation worker of [TTS/BTTS_gui.py].

    Conventions of the embedding.
    - Python [str] values are Rocq strings (sequences of 8-bit characters);
      [str.lower], [str.upper], [str.strip] and [str.isdigit] act on the
      ASCII range. On text outside that range Python's methods do more
      (they know Unicode spaces, cases and digits); where a property of a
      typed answer depends on it, it is stated for ASCII text.
    - Python floats are IEEE binary64 numbers, Rocq's primitive floats,
      with their rounding, infinities and NaN: the speed, the rates and
      the guard of the time-stretch stage are computed on them as Python
      computes them.
    - The arrays of the pipeline hold float32 samples, the dtype that
      [librosa.load] returns and that the librosa effects keep. A sample
      is the binary64 value it denotes; a product of the array with a
      Python float is rounded to float32 as numpy does it. The parameters
      of the form, which the worker only passes on, are rationals ([Q]).
    - A python [dict] keyed by strings is a [gmap string _]. Of the disk
      the state keeps the paths the function itself creates and removes,
      the temporary file and the output file, as a [gset string]; what an
      external call does to other paths is outside the model.
    - Calls into external libraries (the TTS engine, librosa, soundfile,
      the file system, the mean of numpy) are fields of an environment
      record; each call that leaves the process is recorded in a call log
      carried by the state. *)

From Stdlib Require Import ZArith QArith Qabs Lia List Bool Ascii String DecimalString.
From Stdlib Require Import Floats.
From stdpp Require Import gmap strings list fin_maps.
Import ListNotations.

#[local] Set Warnings "-inexact-float".

Local Open Scope string_scope.

(** ** Python string primitives *)

Module PyStr.

Definition is_upper (c : ascii) : bool :=
  let n := nat_of_ascii c in (65 <=? n)%nat && (n <=? 90)%nat.

Definition is_lower (c : ascii) : bool :=
  let n := nat_of_ascii c in (97 <=? n)%nat && (n <=? 122)%nat.

Definition lower_char (c : ascii) : ascii :=
  if is_upper c then ascii_of_nat (nat_of_ascii c + 32) else c.

Definition upper_char (c : ascii) : ascii :=
  if is_lower c then ascii_of_nat (nat_of_ascii c - 32) else c.

(** [str.isspace] on the ASCII range: tab, line feed, vertical tab, form
    feed, carriage return, the four separators 0x1c-0x1f and space. *)
Definition is_space (c : ascii) : bool :=
  let n := nat_of_ascii c in
  ((9 <=? n)%nat && (n <=? 13)%nat) || ((28 <=? n)%nat && (n <=? 32)%nat).

Fixpoint smap (f : ascii -> ascii) (s : string) : string :=
  match s with
  | EmptyString => EmptyString
  | String c r => String (f c) (smap f r)
  end.

Definition lower : string -> string := smap lower_char.
Definition upper : string -> string := smap upper_char.

Fixpoint lstrip (s : string) : string :=
  match s with
  | EmptyString => EmptyString
  | String c r => if is_space c then lstrip r else s
  end.

Fixpoint rstrip (s : string) : string :=
  match s with
  | EmptyString => EmptyString
  | String c r =>
      match rstrip r with
      | EmptyString => if is_space c then EmptyString else String c EmptyString
      | r' => String c r'
      end
  end.

Definition strip (s : string) : string := rstrip (lstrip s).

(** [s.startswith(p)] *)
Definition startswith (s p : string) : bool := String.prefix p s.

(** [s.split(sep)] for a one-character separator: never empty. *)
Fixpoint split (sep : ascii) (s : string) : list string :=
  match s with
  | EmptyString => [EmptyString]
  | String c r =>
      if Ascii.eqb c sep then EmptyString :: split sep r
      else match split sep r with
           | h :: t => String c h :: t
           | [] => [String c EmptyString]
           end
  end.

Definition is_empty (s : string) : bool :=
  match s with EmptyString => true | _ => false end.

End PyStr.

(** ** The speaker-gender table ([load_speaker_genders], CTTS.py 12-34) *)

Module Genders.
Import PyStr.

(** What iterating over the opened file delivers: lines, until the end of
    the file or until reading raises (a decoding error, say). *)
Inductive line_stream : Type :=
| Eof : line_stream
| ReadError : line_stream
| Line : string -> line_stream -> line_stream.

(** Outcome of [open(path, "r", encoding="utf-8")]. *)
Inductive file : Type :=
| FileNotFound : file
| OpenError : file
| Opened : line_stream -> file.

Fixpoint of_lines (ls : list string) : line_stream :=
  match ls with
  | [] => Eof
  | l :: r => Line l (of_lines r)
  end.

(** Body of the [for i, line in enumerate(f)] loop for one line. *)
Definition record_line (i : nat) (line : string)
    (genders : gmap string string) : gmap string string :=
  let line := strip line in
  if is_empty line then genders
  else if Nat.eqb i 0 && startswith (lower line) "id," then genders
  else
    let parts := split "," line in
    if (2 <=? length parts)%nat then
      let sid := strip (nth 0 parts EmptyString) in
      let g := strip (nth 1 parts EmptyString) in
      if negb (is_empty sid) then <[upper sid := g]> genders else genders
    else genders.

(** The loop; an exception raised while reading is swallowed by
    [except Exception: pass] and the entries stored so far are returned. *)
Fixpoint read_loop (i : nat) (f : line_stream)
    (genders : gmap string string) : gmap string string :=
  match f with
  | Eof => genders
  | ReadError => genders
  | Line l rest => read_loop (S i) rest (record_line i l genders)
  end.

Definition load_speaker_genders (fs : string -> file) (path : string)
    : gmap string string :=
  match fs path with
  | FileNotFound => ∅
  | OpenError => ∅
  | Opened f => read_loop 0 f ∅
  end.

(** The lookup of the console entry point (CTTS.py 271-272):
    [genders_map.get(sp.strip().upper(), "unknown")]. *)
Definition gender_of (genders_map : gmap string string) (sp : string) : string :=
  default "unknown" (genders_map !! upper (strip sp)).

End Genders.

(** ** Exceptions, external calls and the state they act on *)

Module Py.

(** The handlers of the source tell [TypeError] from every other
    exception; [except Exception] catches both. *)
Inductive exn : Type :=
| TypeError : exn
| RuntimeError : exn.

Inductive result (A : Type) : Type :=
| Ok : A -> result A
| Raise : exn -> result A.
Arguments Ok {A} _.
Arguments Raise {A} _.

(** An array as [librosa.load] may hand it back: one-dimensional, or
    two-dimensional as the list of its rows (the index along axis 0), each
    row the list of its entries (the index along axis 1). librosa lays a
    multi-channel signal out channels first, shape (channels, samples):
    one row per channel. (Called as on line 93, with its default
    [mono=True], [librosa.load] mixes the channels down itself and the
    array is one-dimensional.) *)
Inductive ndarray : Type :=
| Arr1 : list float -> ndarray
| Arr2 : list (list float) -> ndarray.

(** Calls that leave the process, in the order they are made. *)
Inductive event : Type :=
| CallSynth (text : string) (speaker : option (option string)) (file_path : string)
| CallLoad (path : string)
| CallPitchShift (sr n_steps : Z)
| CallTimeStretch (rate : float)
| CallWrite (file : string) (data : list float) (samplerate : Z) (subtype : option string)
| CallRemove (path : string).

Record state : Type := mkState {
  files : gset string;      (* paths the function created and has not removed,
                               and the paths that were there before *)
  calls : list event        (* call log, oldest first *)
}.

Definition M (A : Type) : Type := state -> result A * state.

Definition ret {A} (a : A) : M A := fun s => (Ok a, s).
Definition raise {A} (e : exn) : M A := fun s => (Raise e, s).

Definition bind {A B} (m : M A) (k : A -> M B) : M B :=
  fun s => match m s with
           | (Ok a, s') => k a s'
           | (Raise e, s') => (Raise e, s')
           end.

(** [try: m  except Exception as e: h e] *)
Definition try_except {A} (m : M A) (h : exn -> M A) : M A :=
  fun s => match m s with
           | (Ok a, s') => (Ok a, s')
           | (Raise e, s') => h e s'
           end.

(** [try: m  except TypeError: h] *)
Definition try_except_TypeError {A} (m : M A) (h : M A) : M A :=
  fun s => match m s with
           | (Raise TypeError, s') => h s'
           | r => r
           end.

(** An external call: logged, then it returns or raises as the
    environment says. What the call itself writes to disk is not tracked. *)
Definition call {A} (ev : event) (r : result A) : M A :=
  fun s => (r, mkState (files s) (calls s ++ [ev])).

Definition create_file (p : string) : M unit :=
  fun s => (Ok tt, mkState ({[p]} ∪ files s) (calls s)).

Definition delete_file (p : string) : M unit :=
  fun s => (Ok tt, mkState (files s ∖ {[p]}) (calls s)).

(** [os.path.exists(p)] *)
Definition path_exists (p : string) : M bool :=
  fun s => (Ok (bool_decide (p ∈ files s)), s).

Definition of_outcome (o : option exn) : result unit :=
  match o with
  | None => Ok tt
  | Some e => Raise e
  end.

Declare Scope py_scope.
Delimit Scope py_scope with py.
Notation "'let*' x ':=' m 'in' k" := (bind m (fun x => k))
  (at level 10, x name, m at level 100, k at level 200) : py_scope.
Notation "'let*' ' p ':=' m 'in' k" := (bind m (fun x => match x with p => k end))
  (at level 10, p pattern, m at level 100, k at level 200) : py_scope.
Notation "'do' m 'then' k" := (bind m (fun _ => k))
  (at level 10, m at level 100, k at level 200) : py_scope.
Notation "'try' m 'except' h" := (try_except m h)
  (at level 10, m at level 100, h at level 9) : py_scope.

End Py.

(** ** numpy helpers used by the pipeline *)

Module Np.
Import Py.

(** [x > y] on floats: false when a side is NaN. *)
Definition gt (x y : float) : bool := (y <? x)%float.

(** The float32 value nearest to a binary64 value, ties to even, overflow
    to an infinity; NaN, the infinities and the zeros are kept. This is
    the cast of [np.asarray(a, dtype=np.float32)] and the rounding of
    float32 arithmetic. *)
Definition float32 (x : float) : float :=
  match Prim2SF x with
  | S754_finite s m e => SF2Prim (binary_round 24 128 s m e)
  | _ => x
  end.

(** [audio * g] for a float32 array and a Python float: the float is cast
    to float32 and each product is a float32 product. The binary64 product
    of two float32 values is exact, so rounding it gives that product. *)
Definition scale (audio : list float) (g : float) : list float :=
  map (fun x => float32 (x * float32 g)%float) audio.

(** [np.maximum] and [np.minimum] on two floats: the first argument when
    the comparison holds or when it is NaN, else the second, so that a
    NaN on either side comes out. *)
Definition maximum (x y : float) : float :=
  if (y <=? x)%float || is_nan x then x else y.

Definition minimum (x y : float) : float :=
  if (x <=? y)%float || is_nan x then x else y.

(** [np.clip(a, lo, hi)], which is [np.minimum(hi, np.maximum(a, lo))]. *)
Definition clip (a : list float) (lo hi : float) : list float :=
  map (fun x => minimum hi (maximum x lo)) a.

End Np.

(** ** The synthesis pipeline ([create_emotional_tts], CTTS.py 40-202) *)

Module Tts.
Import PyStr Py Np.
Local Open Scope py_scope.

(** The TTS engine object: its speaker list (empty when the attribute is
    missing, [None] or empty) and the two ways [tts_to_file] is called. *)
Record tts_model : Type := {
  speakers : list string;
  tts_to_file : string -> option string -> string -> option exn;
  tts_to_file_text_only : string -> string -> option exn
}.

(** The world outside the function. *)
Record env : Type := {
  TTS_vctk_vits : result tts_model;     (* TTS(model_name="tts_models/en/vctk/vits") *)
  temp_name : string;                   (* name picked by NamedTemporaryFile *)
  librosa_load : string -> result (ndarray * Z);
  np_mean : list float -> float;        (* np.mean of the entries of one row, summed
                                           in numpy's order; NaN for an empty row *)
  pitch_shift : list float -> Z -> Z -> result (list float);
  time_stretch : list float -> float -> result (list float);
  sf_write : string -> list float -> Z -> option string -> option exn;
  os_remove : string -> option exn
}.

Section Pipeline.
Variable E : env.

Definition librosa_effects_pitch_shift (audio : list float) (sr n_steps : Z)
    : M (list float) :=
  call (CallPitchShift sr n_steps) (pitch_shift E audio sr n_steps).

Definition librosa_effects_time_stretch (audio : list float) (rate : float)
    : M (list float) :=
  call (CallTimeStretch rate) (time_stretch E audio rate).

Definition len (audio : list float) : Z := Z.of_nat (length audio).

(** Lines 108-181: the emotion branches. [global_speed] is the value of
    [float(global_speed)]; the rate and its guard are binary64. *)
Definition apply_emotion (emotion : string) (audio : list float) (sr : Z)
    (global_speed : float) : M (list float) :=
  if String.eqb (lower emotion) "sad" then
    let* audio :=
      try librosa_effects_pitch_shift audio sr (-3)
      except (fun _ => ret audio) in
    let* audio :=
      if (len audio >? sr)%Z then
        try (let rate := (0.7 * global_speed)%float in
             if gt (abs (rate - 1)) 0.01 && gt rate 0
             then librosa_effects_time_stretch audio rate
             else ret audio)
        except (fun _ => ret audio)
      else ret audio in
    ret (scale audio 0.8)
  else if String.eqb (lower emotion) "happy" then
    let* audio := librosa_effects_pitch_shift audio sr 2 in
    let* audio :=
      try (let rate := (1.2 * global_speed)%float in
           if (len audio >? sr)%Z && gt (abs (rate - 1)) 0.01 && gt rate 0
           then librosa_effects_time_stretch audio rate
           else ret audio)
      except (fun _ => ret audio) in
    ret (scale audio 1.1)
  else if String.eqb (lower emotion) "angry" then
    let* audio := librosa_effects_pitch_shift audio sr (-2) in
    let* audio :=
      try (let rate := (1.1 * global_speed)%float in
           if (len audio >? sr)%Z && gt (abs (rate - 1)) 0.01 && gt rate 0
           then librosa_effects_time_stretch audio rate
           else ret audio)
      except (fun _ => ret audio) in
    ret (scale audio 1.2)
  else if String.eqb (lower emotion) "calm" then
    let* audio := librosa_effects_pitch_shift audio sr (-1) in
    let* audio :=
      try (let rate := (0.8 * global_speed)%float in
           if (len audio >? sr)%Z && gt (abs (rate - 1)) 0.01 && gt rate 0
           then librosa_effects_time_stretch audio rate
           else ret audio)
      except (fun _ => ret audio) in
    ret (scale audio 0.9)
  else if String.eqb (lower emotion) "excited" then
    let* audio := librosa_effects_pitch_shift audio sr 3 in
    let* audio :=
      try (let rate := (1.3 * global_speed)%float in
           if (len audio >? sr)%Z && gt (abs (rate - 1)) 0.01 && gt rate 0
           then librosa_effects_time_stretch audio rate
           else ret audio)
      except (fun _ => ret audio) in
    ret (scale audio 1.15)
  else if String.eqb (lower emotion) "whisper" then
    let* audio := librosa_effects_pitch_shift audio sr (-1) in
    ret (scale audio 0.5)
  else
    ret audio.

(** Lines 96-101 and 195-200: remove the temporary file if it is there;
    whatever the removal raises is swallowed. *)
Definition cleanup (temp_path : string) : M unit :=
  try (let* present := path_exists temp_path in
       if present then
         do call (CallRemove temp_path) (of_outcome (os_remove E temp_path))
         then delete_file temp_path
       else ret tt)
  except (fun _ => ret tt).

(** Lines 104-106: [if audio.ndim > 1: audio = np.mean(audio, axis=1)].
    The mean along axis 1 has one value per row, the mean of the entries
    of that row. *)
Definition to_mono (audio : ndarray) : list float :=
  match audio with
  | Arr1 v => v
  | Arr2 rows => map (np_mean E) rows
  end.

(** Lines 184-185: [np.asarray(audio, dtype=np.float32)], then
    [np.clip(audio, -1.0, 1.0)]. *)
Definition finalize (audio : list float) : list float :=
  clip (map float32 audio) (-1) 1.

(** [sf.write]: on success the output file exists. *)
Definition soundfile_write (file : string) (data : list float) (sr : Z)
    (subtype : option string) : M unit :=
  do call (CallWrite file data sr subtype) (of_outcome (sf_write E file data sr subtype))
  then create_file file.

Definition create_emotional_tts (text emotion output_file : string)
    (speaker : option string) (tts_instance : option tts_model)
    (speaker_gender : option string) (global_speed : float) : M string :=
  let* tts :=
    match tts_instance with
    | Some t => ret t
    | None => fun s => (TTS_vctk_vits E, s)
    end in
  let speaker :=
    match speaker, speakers tts with
    | None, s0 :: _ => Some s0
    | _, _ => speaker
    end in
  let temp_path := temp_name E in
  do create_file temp_path then
  let* '(audio, sr) :=
    try (do try_except_TypeError
              (call (CallSynth text (Some speaker) temp_path)
                    (of_outcome (tts_to_file tts text speaker temp_path)))
              (call (CallSynth text None temp_path)
                    (of_outcome (tts_to_file_text_only tts text temp_path)))
         then call (CallLoad temp_path) (librosa_load E temp_path))
    except (fun e => do cleanup temp_path then raise e) in
  let audio := to_mono audio in
  let* audio := apply_emotion emotion audio sr global_speed in
  let audio := finalize audio in
  do try_except_TypeError
       (soundfile_write output_file audio sr (Some "PCM_16"))
       (soundfile_write output_file audio sr None) then
  do cleanup temp_path then
  ret output_file.

End Pipeline.

(** The labels of [available_emotions] (line 206). *)
Definition available_emotions : list string :=
  ["sad"; "happy"; "angry"; "calm"; "excited"; "whisper"; "neutral"].

(** A top-level run: the call log starts empty. *)
Definition run {A} (m : M A) (disk : gset string) : result A * state :=
  m (mkState disk []).

End Tts.

(** ** The generation worker of the form ([_generate_thread],
       BTTS_gui.py 337-388) *)

Module Gui.

Definition nl : string := String (ascii_of_nat 10) EmptyString.

(** Keyword arguments of one call of [create_emotional_tts]; a keyword
    that the call does not pass is [None]. *)
Record kwargs : Type := {
  kw_text : string;
  kw_emotion : string;
  kw_output_file : string;
  kw_speaker : option string;
  kw_tts_instance : option string;
  kw_speaker_gender : option string;
  kw_global_speed : Q;
  kw_model_name : string;
  kw_child_mode : bool;
  kw_pitch_shift : Q;
  kw_energy : Q;
  kw_tremolo_rate : option Q;
  kw_tremolo_depth : option Q;
  kw_reverb_amount : option Q;
  kw_brightness : option Q
}.

(** What the worker does to the outside, in order. *)
Inductive action : Type :=
| ButtonState (state : string)                 (* generate_btn.config(state=...) *)
| SetStatus (text : string)                    (* set_status(...) *)
| CallCreate (kw : kwargs)                     (* create_emotional_tts(...) *)
| ShowError (title message : string).          (* messagebox.showerror(...) *)

(** The keyword arguments of the first call (lines 346-362). *)
Definition primary_call (text emotion out chosen_model : string) (child_mode : bool)
    (global_speed pitch_shift energy trem_rate trem_depth reverb_amt brightness : Q)
    : kwargs :=
  {| kw_text := text; kw_emotion := emotion; kw_output_file := out;
     kw_speaker := None; kw_tts_instance := None; kw_speaker_gender := None;
     kw_global_speed := global_speed;
     kw_model_name := chosen_model;
     kw_child_mode := child_mode;
     kw_pitch_shift := pitch_shift;
     kw_energy := energy;
     kw_tremolo_rate := Some trem_rate;
     kw_tremolo_depth := Some trem_depth;
     kw_reverb_amount := Some reverb_amt;
     kw_brightness := Some brightness |}.

(** The keyword arguments of the call in the handler (lines 370-382). *)
Definition fallback_call (text emotion out : string)
    (global_speed pitch_shift energy : Q) : kwargs :=
  {| kw_text := text; kw_emotion := emotion; kw_output_file := out;
     kw_speaker := None; kw_tts_instance := None; kw_speaker_gender := None;
     kw_global_speed := global_speed;
     kw_model_name := "tts_models/en/vctk/vits";
     kw_child_mode := true;
     kw_pitch_shift := pitch_shift;
     kw_energy := energy;
     kw_tremolo_rate := None;
     kw_tremolo_depth := None;
     kw_reverb_amount := None;
     kw_brightness := None |}.

(** [model_name or default] *)
Definition or_else (model_name : option string) (default : string) : string :=
  match model_name with
  | None => default
  | Some EmptyString => default
  | Some m => m
  end.

(** The calls of [create_emotional_tts] in a trace. *)
Fixpoint created (tr : list action) : list kwargs :=
  match tr with
  | [] => []
  | CallCreate kw :: r => kw :: created r
  | _ :: r => created r
  end.

(** The error dialogs in a trace. *)
Fixpoint dialogs (tr : list action) : list (string * string) :=
  match tr with
  | [] => []
  | ShowError t m :: r => (t, m) :: dialogs r
  | _ :: r => dialogs r
  end.

Section Worker.
(** Exceptions, their rendering by [traceback.format_exc()], and the
    imported [create_emotional_tts]: the n-th call either returns
    ([None]) or raises. *)
Variable exc : Type.
Variable format_exc : exc -> string.
Variable create_emotional_tts : nat -> kwargs -> option exc.

Definition _generate_thread (text emotion out : string)
    (model_name : option string) (child_mode : bool)
    (global_speed pitch_shift energy trem_rate trem_depth reverb_amt brightness : Q)
    : list action :=
  let chosen_model :=
    or_else model_name
      (if child_mode then "C3Imaging/child_tts_fastpitch"
       else "tts_models/en/vctk/vits") in
  let primary :=
    primary_call text emotion out chosen_model child_mode global_speed
      pitch_shift energy trem_rate trem_depth reverb_amt brightness in
  let fallback :=
    fallback_call text emotion out global_speed pitch_shift energy in
  [ButtonState "disabled";
   SetStatus "Starting generation...";
   SetStatus ("Initializing model: " ++ chosen_model);
   CallCreate primary]
  ++ match create_emotional_tts 0 primary with
     | None => [SetStatus ("Done. Saved to " ++ out)]
     | Some e =>
         let tb := format_exc e in
         [SetStatus "Generation failed: falling back to vctk approximation...";
          CallCreate fallback]
         ++ match create_emotional_tts 1 fallback with
            | None => [SetStatus ("Done with fallback. Saved to " ++ out)]
            | Some e2 =>
                [SetStatus "All generation attempts failed";
                 ShowError "Generation failed"
                   ("Errors:" ++ nl ++ tb ++ nl ++ format_exc e2)]
            end
     end
  ++ [ButtonState "normal"].

End Worker.

End Gui.

(** ** Observations on a run *)

Module Obs.
Import Py Np Tts.

(** The rates of the [time_stretch] calls of a call log. *)
Fixpoint time_stretch_calls (l : list event) : list float :=
  match l with
  | [] => []
  | CallTimeStretch r :: t => r :: time_stretch_calls t
  | _ :: t => time_stretch_calls t
  end.

(** The semitone arguments of the [pitch_shift] calls of a call log. *)
Fixpoint pitch_shift_calls (l : list event) : list Z :=
  match l with
  | [] => []
  | CallPitchShift _ n :: t => n :: pitch_shift_calls t
  | _ :: t => pitch_shift_calls t
  end.

(** The arguments of the [sf.write] calls of a call log. *)
Fixpoint write_calls (l : list event)
    : list (string * list float * Z * option string) :=
  match l with
  | [] => []
  | CallWrite f d sr sub :: t => (f, d, sr, sub) :: write_calls t
  | _ :: t => write_calls t
  end.

(** The condition under which the branches of lines 108-172 call
    [time_stretch] on the buffer [audio] at [rate]. *)
Definition stretch_guard (audio : list float) (sr : Z) (rate : float) : bool :=
  (len audio >? sr)%Z && gt (abs (rate - 1)) 0.01 && gt rate 0.

(** A sample that is neither below -1 nor above 1: a number of [-1, 1],
    or NaN. *)
Definition not_beyond (x : float) : Prop :=
  (x <? -1)%float = false /\ (1 <? x)%float = false.

(** A sample that is a number of [-1, 1]. *)
Definition in_range (x : float) : Prop :=
  (-1 <=? x)%float = true /\ (x <=? 1)%float = true.

(** The buffer an [sf.write] call is given has no sample below -1 or
    above 1, and its samples that are numbers lie in [-1, 1]. *)
Definition write_in_range (ev : event) : Prop :=
  match ev with
  | CallWrite _ data _ _ =>
      Forall (fun y => not_beyond y /\ (is_nan y = false -> in_range y)) data
  | _ => True
  end.

(** How two floats compare: one of them is NaN and every comparison is
    false, or exactly one of less, equal, greater holds. *)
Inductive compared (x y : float) : Prop :=
| cmp_nan :
    is_nan x = true \/ is_nan y = true ->
    (x <? y)%float = false -> (x <=? y)%float = false ->
    (y <? x)%float = false -> (y <=? x)%float = false -> compared x y
| cmp_lt :
    is_nan x = false -> is_nan y = false ->
    (x <? y)%float = true -> (x <=? y)%float = true ->
    (y <? x)%float = false -> (y <=? x)%float = false -> compared x y
| cmp_eq :
    is_nan x = false -> is_nan y = false ->
    SFcompare (Prim2SF x) (Prim2SF y) = Some Eq ->
    (x <? y)%float = false -> (x <=? y)%float = true ->
    (y <? x)%float = false -> (y <=? x)%float = true -> compared x y
| cmp_gt :
    is_nan x = false -> is_nan y = false ->
    (x <? y)%float = false -> (x <=? y)%float = false ->
    (y <? x)%float = true -> (y <=? x)%float = true -> compared x y.

(** A multiplier of the speed that is a positive number. *)
Definition positive_finite (k : float) : Prop :=
  exists m e, Prim2SF k = S754_finite false m e.

(** The waveform that reaches the effect chain in a run with these
    arguments: the engine is there (handed in, or built), synthesis into
    the temporary file returns (at once, or without the speaker after a
    [TypeError]) and [librosa.load] returns [audio] at sample rate [sr]. *)
Definition loaded (E : env) (text : string) (speaker : option string)
    (tts_instance : option tts_model) (audio : ndarray) (sr : Z) : Prop :=
  exists tts,
    (tts_instance = Some tts \/ (tts_instance = None /\ TTS_vctk_vits E = Ok tts)) /\
    (let speaker :=
       match speaker, speakers tts with
       | None, s0 :: _ => Some s0
       | _, _ => speaker
       end in
     tts_to_file tts text speaker (temp_name E) = None \/
     (tts_to_file tts text speaker (temp_name E) = Some TypeError /\
      tts_to_file_text_only tts text (temp_name E) = None)) /\
    librosa_load E (temp_name E) = Ok (audio, sr).

(** [m] only adds events that satisfy [P] to the call log. *)
Definition keeps {A} (P : event -> Prop) (m : M A) : Prop :=
  forall s, Forall P (calls s) -> Forall P (calls (snd (m s))).

Definition no_stretch (ev : event) : Prop :=
  match ev with
  | CallTimeStretch _ => False
  | _ => True
  end.


End Obs.

(** ** The emotion table of the specification (section 4.1) *)

Module Spec.
Import PyStr Py Np Tts Obs.
Local Open Scope py_scope.

(** The table as section 4.1 words it, one record per label, to be
    compared with [Tts.apply_emotion]. *)
Record EmotionProfile : Type := {
  pitch : option Z;        (* semitones *)
  rate : option float;     (* multiplier of global_speed *)
  gain : option float
}.

Definition identity : EmotionProfile :=
  {| pitch := None; rate := None; gain := None |}.

Definition profile (label : string) : EmotionProfile :=
  if String.eqb label "sad" then
    {| pitch := Some (-3)%Z; rate := Some 0.7%float; gain := Some 0.8%float |}
  else if String.eqb label "happy" then
    {| pitch := Some 2%Z; rate := Some 1.2%float; gain := Some 1.1%float |}
  else if String.eqb label "angry" then
    {| pitch := Some (-2)%Z; rate := Some 1.1%float; gain := Some 1.2%float |}
  else if String.eqb label "calm" then
    {| pitch := Some (-1)%Z; rate := Some 0.8%float; gain := Some 0.9%float |}
  else if String.eqb label "excited" then
    {| pitch := Some 3%Z; rate := Some 1.3%float; gain := Some 1.15%float |}
  else if String.eqb label "whisper" then
    {| pitch := Some (-1)%Z; rate := None; gain := Some 0.5%float |}
  else identity.

Section Chain.
Variable E : env.

(** A stage that raises is skipped: the buffer goes on unmodified. *)
Definition stage (m : M (list float)) (audio : list float) : M (list float) :=
  try m except (fun _ => ret audio).

(** Pitch-shift, then conditional time-stretch, then gain. *)
Definition chain (p : EmotionProfile) (audio : list float) (sr : Z)
    (global_speed : float) : M (list float) :=
  let* audio :=
    match pitch p with
    | Some n => stage (librosa_effects_pitch_shift E audio sr n) audio
    | None => ret audio
    end in
  let* audio :=
    match rate p with
    | Some k =>
        let r := (k * global_speed)%float in
        if stretch_guard audio sr r
        then stage (librosa_effects_time_stretch E audio r) audio
        else ret audio
    | None => ret audio
    end in
  ret match gain p with
      | Some g => scale audio g
      | None => audio
      end.

(** The pitch stage of the label's profile returns on [audio]. *)
Definition pitch_returns (p : EmotionProfile) (audio : list float) (sr : Z) : Prop :=
  forall n, pitch p = Some n -> exists a1, pitch_shift E audio sr n = Ok a1.

(** [a1] is the buffer that reaches the time-stretch stage of the branch
    of [emotion] on [audio]: what the pitch stage returned or, in the sad
    branch, whose pitch stage is inside a [try], [audio] itself when the
    pitch stage raised. *)
Definition reaches_stretch (emotion : string) (n : Z) (audio : list float)
    (sr : Z) (a1 : list float) : Prop :=
  pitch_shift E audio sr n = Ok a1 \/
  (lower emotion = "sad" /\ a1 = audio /\
   exists e, pitch_shift E audio sr n = Raise e).

End Chain.

(** The hard clip of section 4.2: a sample below -1 becomes -1, a sample
    above 1 becomes 1, every other sample is kept. *)
Definition hard_clip (x : float) : float :=
  if (x <? -1)%float then (-1)%float
  else if (1 <? x)%float then 1%float
  else x.



(** The labels whose profile has a time-stretch stage. *)
Definition stretching : list string :=
  ["sad"; "happy"; "angry"; "calm"; "excited"].




End Spec.

(** ** Concrete worlds used to run the model *)

Module Examples.
Import PyStr Py Np Tts Obs.

Definition model_ok : tts_model :=
  {| speakers := ["p225"];
     tts_to_file := fun _ _ _ => None;
     tts_to_file_text_only := fun _ _ => None |}.

(** A row mean for the worlds below: the entries added from the left,
    the sum divided by their number, in binary64. On the rows used here
    every step is exact. The mean of an empty row is 0/0, NaN. *)
Definition mean_of (row : list float) : float :=
  (fold_left PrimFloat.add row 0
   / SF2Prim (binary_normalize prec emax (Z.of_nat (length row)) 0 false))%float.

Definition three_samples : list float := [0.5; 3; -2]%float.

(** Every external call returns; the loaded waveform has three samples
    at a sample rate of 2, so it is longer than one second. *)
Definition world_ok : env :=
  {| TTS_vctk_vits := Ok model_ok;
     temp_name := "/tmp/tmpq3.wav";
     librosa_load := fun _ => Ok (Arr1 three_samples, 2%Z);
     np_mean := mean_of;
     pitch_shift := fun a _ _ => Ok a;
     time_stretch := fun a _ => Ok (a ++ a)%list;
     sf_write := fun _ _ _ _ => None;
     os_remove := fun _ => None |}.

(** [librosa.effects.pitch_shift] raises (as it does on a buffer that
    is not finite everywhere). *)
Definition world_pitch_raises : env :=
  {| TTS_vctk_vits := Ok model_ok;
     temp_name := "/tmp/tmpq3.wav";
     librosa_load := fun _ => Ok (Arr1 three_samples, 2%Z);
     np_mean := mean_of;
     pitch_shift := fun _ _ _ => Raise RuntimeError;
     time_stretch := fun a _ => Ok (a ++ a)%list;
     sf_write := fun _ _ _ _ => None;
     os_remove := fun _ => None |}.

(** [librosa.effects.time_stretch] raises. *)
Definition world_stretch_raises : env :=
  {| TTS_vctk_vits := Ok model_ok;
     temp_name := "/tmp/tmpq3.wav";
     librosa_load := fun _ => Ok (Arr1 three_samples, 2%Z);
     np_mean := mean_of;
     pitch_shift := fun a _ _ => Ok a;
     time_stretch := fun _ _ => Raise RuntimeError;
     sf_write := fun _ _ _ _ => None;
     os_remove := fun _ => None |}.

(** [sf.write] raises (the directory of the output path is missing). *)
Definition world_write_raises : env :=
  {| TTS_vctk_vits := Ok model_ok;
     temp_name := "/tmp/tmpq3.wav";
     librosa_load := fun _ => Ok (Arr1 three_samples, 2%Z);
     np_mean := mean_of;
     pitch_shift := fun a _ _ => Ok a;
     time_stretch := fun a _ => Ok (a ++ a)%list;
     sf_write := fun _ _ _ _ => Some RuntimeError;
     os_remove := fun _ => None |}.

(** The loaded waveform is finite; the pitch stage hands back a buffer of
    NaN, and [librosa.effects.time_stretch] raises on it, as it does on a
    buffer that is not finite everywhere. *)
Definition world_pitch_nan : env :=
  {| TTS_vctk_vits := Ok model_ok;
     temp_name := "/tmp/tmpq3.wav";
     librosa_load := fun _ => Ok (Arr1 three_samples, 2%Z);
     np_mean := mean_of;
     pitch_shift := fun a _ _ => Ok (map (fun _ => nan) a);
     time_stretch := fun _ _ => Raise RuntimeError;
     sf_write := fun _ _ _ _ => None;
     os_remove := fun _ => None |}.

(** The loaded waveform itself holds a NaN; both effects raise on it, as
    librosa does on a buffer that is not finite everywhere. *)
Definition world_load_nan : env :=
  {| TTS_vctk_vits := Ok model_ok;
     temp_name := "/tmp/tmpq3.wav";
     librosa_load := fun _ => Ok (Arr1 [0.5; nan; -2]%float, 2%Z);
     np_mean := mean_of;
     pitch_shift := fun _ _ _ => Raise RuntimeError;
     time_stretch := fun _ _ => Raise RuntimeError;
     sf_write := fun _ _ _ _ => None;
     os_remove := fun _ => None |}.



(** The gender resource of the scenario of section 8. *)
Definition disk_table (p : string) : Genders.file :=
  if String.eqb p "speaker_audios/speaker_IDs.txt" then
    Genders.Opened (Genders.of_lines ["id,gender" ++ Gui.nl; "P225,female" ++ Gui.nl])
  else Genders.FileNotFound.


(** A generation entry point that raises on every call. *)
Definition always_raises (n : nat) (kw : Gui.kwargs) : option string :=
  Some (if Nat.eqb n 0 then "primary failed" else "fallback failed").

End Examples.

(** ** Further observations on a run *)

Module Audit.
Import Py Np Tts Obs.

(** The stage of the pipeline a call belongs to. *)
Definition phase (ev : event) : nat :=
  match ev with
  | CallSynth _ _ _ => 0
  | CallLoad _ => 1
  | CallPitchShift _ _ => 2
  | CallTimeStretch _ => 3
  | CallWrite _ _ _ _ => 4
  | CallRemove _ => 5
  end.

Fixpoint nondecreasing (l : list nat) : bool :=
  match l with
  | [] => true
  | x :: r =>
      match r with
      | [] => true
      | y :: _ => (x <=? y)%nat && nondecreasing r
      end
  end.

(** The calls one run of the emotion branches can add to the log: none, a
    pitch-shift, or a pitch-shift followed by a time-stretch whose rate is
    a multiple of [global_speed], positive and further than 0.01 from 1. *)
Definition effect_calls (sr : Z) (gs : float) (d : list event) : Prop :=
  d = [] \/
  (exists n, d = [CallPitchShift sr n]) \/
  (exists n k, d = [CallPitchShift sr n; CallTimeStretch (k * gs)%float]
               /\ (0 <? k * gs)%float = true
               /\ (0.01 <? abs (k * gs - 1))%float = true).

(** The sample rates that the calls of a log were given. *)
Fixpoint rates_used (l : list event) : list Z :=
  match l with
  | [] => []
  | CallPitchShift sr _ :: t => sr :: rates_used t
  | CallWrite _ _ sr _ :: t => sr :: rates_used t
  | _ :: t => rates_used t
  end.

(** A call that only happens once the waveform is loaded. *)
Definition after_load (ev : event) : bool :=
  match ev with
  | CallPitchShift _ _ | CallTimeStretch _ | CallWrite _ _ _ _ => true
  | _ => false
  end.

(** A field of a record: no comma and no whitespace in it. *)
Fixpoint plain (s : string) : bool :=
  match s with
  | EmptyString => true
  | String c r => negb (PyStr.is_space c) && negb (Ascii.eqb c ",") && plain r
  end.

(** An entry of the gender table in normal form: a non-empty upper-case
    id and a gender, both without surrounding whitespace. *)
Definition normal_entry (k v : string) : Prop :=
  k <> EmptyString /\ PyStr.upper k = k /\ PyStr.strip k = k /\ PyStr.strip v = v.

End Audit.

(** ** The console entry point and [generate_emotional_speech]
       (CTTS.py 211-362) *)

Module Cli.
Import PyStr Py Np Tts.
Local Open Scope py_scope.

Definition is_digit (c : ascii) : bool :=
  let n := nat_of_ascii c in (48 <=? n)%nat && (n <=? 57)%nat.

Fixpoint all_digits (s : string) : bool :=
  match s with
  | EmptyString => true
  | String c r => is_digit c && all_digits r
  end.

(** [str.isdigit] on the ASCII range: non-empty and decimal digits only.
    (On other text Python also accepts the digits of other scripts and
    characters such as a superscript two.) *)
Definition isdigit (s : string) : bool := negb (is_empty s) && all_digits s.

(** Every character is below 128. *)
Fixpoint is_ascii (s : string) : bool :=
  match s with
  | EmptyString => true
  | String c r => (nat_of_ascii c <? 128)%nat && is_ascii r
  end.

(** The longest digit string [int] converts by default; beyond it the
    conversion raises [ValueError] (since Python 3.11). *)
Definition int_max_str_digits : nat := 4300.

(** A typed answer on which the string methods of the model are those of
    Python, and on which [int] returns when [isdigit] holds. *)
Definition plain_answer (s : string) : Prop :=
  is_ascii s = true /\ (String.length s <= int_max_str_digits)%nat.

Fixpoint int_acc (acc : Z) (s : string) : Z :=
  match s with
  | EmptyString => acc
  | String c r => int_acc (10 * acc + (Z.of_nat (nat_of_ascii c) - 48)) r
  end.

(** [int(s)] for a string of ASCII decimal digits, of which there are no
    more than [int_max_str_digits]. *)
Definition int (s : string) : Z := int_acc 0 s.

(** [str(n)] *)
Definition str (n : nat) : string := NilZero.string_of_uint (Nat.to_uint n).

(** Lines 228-250: the emotion chosen from the answer to the prompt, for
    a [plain_answer]. (The [int] of line 237 is not inside a [try]: on
    an answer that [isdigit] accepts and [int] refuses, the program ends
    in [ValueError].) *)
Definition select_emotion (emotion_choice : string) : string :=
  let ec := lower (strip emotion_choice) in
  if is_empty ec then "neutral"
  else if isdigit ec then
    let emotion_index := (int ec - 1)%Z in
    if (0 <=? emotion_index)%Z && (emotion_index <? Z.of_nat (length available_emotions))%Z
    then nth (Z.to_nat emotion_index) available_emotions "neutral"
    else "neutral"
  else
    match List.filter (fun e => String.eqb (lower e) ec) available_emotions with
    | m :: _ => m
    | [] => "neutral"
    end.

(** Lines 274-285: the speaker chosen from the answer to the prompt, asked
    only when the model lists speakers, for a [plain_answer]. (The [int]
    of line 278 is not inside a [try] either.) *)
Definition select_speaker (speakers : list string) (sp_choice : string)
    : option string :=
  let spc := strip sp_choice in
  if is_empty spc then None
  else if isdigit spc then
    let idx := (int spc - 1)%Z in
    if (0 <=? idx)%Z && (idx <? Z.of_nat (length speakers))%Z
    then nth_error speakers (Z.to_nat idx)
    else None
  else
    match List.filter (fun s => String.eqb s spc) speakers with
    | m :: _ => Some m
    | [] => None
    end.




End Cli.

(** ** The form around the worker (BTTS.py, BTTS_gui.py 14-19, 206-335) *)

Module Form.
Import PyStr Gui.

(** What [runpy.run_path] found in BTTS.PY. *)
Record namespace : Type := {
  ns_create_emotional_tts : bool;              (* the name is bound *)
  ns_available_emotions : option (list string)
}.

(** BTTS.py: the emotions the wrapper re-exports, [None] when importing it
    raises (the file is missing, running it raises, or a name is unbound). *)
Definition import_BTTS (alt_path_exists : bool) (run_path : option namespace)
    : option (list string) :=
  if negb alt_path_exists then None
  else match run_path with
       | None => None
       | Some ns =>
           if negb (ns_create_emotional_tts ns) then None
           else ns_available_emotions ns
       end.

(** BTTS_gui.py 15-19: whether [create_emotional_tts] is bound, and the
    emotions offered. *)
Definition gui_imports (imported : option (list string)) : bool * list string :=
  match imported with
  | Some emotions => (true, emotions)
  | None =>
      (false, ["neutral"; "sad"; "happy"; "angry"; "calm"; "excited"; "whisper"])
  end.

(** The widgets [on_generate] reads. A numeric read is [None] when it
    raises (text that is no number). *)
Record form : Type := {
  txt : string;
  emotion_var : string;
  child_var : bool;
  model_choice_var : string;
  model_custom_var : string;
  speed_var : option Q;
  pitch_var : option Q;
  energy_var : option Q;
  trem_rate_var : option Q;
  trem_depth_var : option Q;
  reverb_var : option Q;
  brightness_var : option Q;
  out_var : string
}.

(** The arguments of the worker thread. *)
Record thread_args : Type := {
  a_text : string;
  a_emotion : string;
  a_out : string;
  a_model_name : option string;
  a_child_mode : bool;
  a_global_speed : Q;
  a_pitch : Q;
  a_energy : Q;
  a_trem_rate : Q;
  a_trem_depth : Q;
  a_reverb_amt : Q;
  a_brightness : Q
}.

Inductive started : Type :=
| Dialog (title message : string)      (* messagebox.showerror, then return *)
| Thread (args : thread_args)          (* threading.Thread(...).start() *)
| Propagates.                          (* an unguarded read raised *)

(** [str(int(time.time()))] *)
Definition str_int (z : Z) : string := NilZero.string_of_int (Z.to_int z).

(** Lines 286-295: the model named by the selection. *)
Definition selected_model (sel custom : string) : option string :=
  if startswith sel "C3Imaging/" then Some "C3Imaging/child_tts_fastpitch"
  else if startswith sel "tts_models/en/vctk/vits" then Some "tts_models/en/vctk/vits"
  else if startswith sel "Other" then
    (if is_empty (strip custom) then None else Some (strip custom))
  else None.

(** Lines 275-335. *)
Definition on_generate (imported : bool) (now : Z) (f : form) : started :=
  if negb imported then
    Dialog "BTTS import error"
      "Could not import create_emotional_tts from BTTS.py. Make sure BTTS.py is in the same folder and imports without prompts."
  else
    let text := strip (txt f) in
    if is_empty text then Dialog "No text" "Please enter text to synthesize."
    else
      let emotion := emotion_var f in
      let child_mode := child_var f in
      let sel := strip (model_choice_var f) in
      let model_name := selected_model sel (model_custom_var f) in
      let global_speed := match speed_var f with Some v => v | None => 1%Q end in
      let out :=
        if is_empty (strip (out_var f))
        then "child_output_" ++ str_int now ++ ".wav"
        else strip (out_var f) in
      let pitch := match pitch_var f with Some v => v | None => 0%Q end in
      let energy := match energy_var f with Some v => v | None => 1%Q end in
      match trem_rate_var f, trem_depth_var f, reverb_var f, brightness_var f with
      | Some trem_rate, Some trem_depth, Some reverb_amt, Some brightness =>
          Thread {| a_text := text; a_emotion := emotion; a_out := out;
                    a_model_name := model_name; a_child_mode := child_mode;
                    a_global_speed := global_speed; a_pitch := pitch;
                    a_energy := energy; a_trem_rate := trem_rate;
                    a_trem_depth := trem_depth; a_reverb_amt := reverb_amt;
                    a_brightness := brightness |}
      | _, _, _, _ => Propagates
      end.

(** The worker run on the arguments the thread was started with. *)
Definition run_thread (exc : Type) (format_exc : exc -> string)
    (create_emotional_tts : nat -> kwargs -> option exc) (a : thread_args)
    : list action :=
  _generate_thread exc format_exc create_emotional_tts
    (a_text a) (a_emotion a) (a_out a) (a_model_name a) (a_child_mode a)
    (a_global_speed a) (a_pitch a) (a_energy a) (a_trem_rate a)
    (a_trem_depth a) (a_reverb_amt a) (a_brightness a).

(** The speaker combobox: its values, its state and its selection. *)
Record speaker_box : Type := {
  box_values : list string;
  box_state : string;
  box_selection : string
}.

(** Lines 251-260. *)
Definition _set_speakers_ui (speakers : list string) : speaker_box :=
  match speakers with
  | s0 :: _ =>
      {| box_values := speakers; box_state := "readonly"; box_selection := s0 |}
  | [] =>
      {| box_values := []; box_state := "disabled"; box_selection := "" |}
  end.

Inductive probe_action : Type :=
| ProbeStatus (text : string)                    (* set_status(...) *)
| ScheduleSpeakers (speakers : list string).     (* root.after(0, _set_speakers_ui) *)

(** Lines 228-249. [import_error] is the message of an exception raised
    by the import of the engine; [TTS model_name] is [None] when the
    constructor raises and else the speaker list of the model (empty when
    it has none). *)
Definition _populate_speakers_thread (import_error : option string)
    (TTS : string -> option (list string)) (model_name : string)
    : list probe_action :=
  ProbeStatus ("Probing model for speakers: " ++ model_name) ::
  match import_error with
  | Some e =>
      [ScheduleSpeakers []; ProbeStatus ("Speaker probe failed: " ++ e)]
  | None =>
      match TTS model_name with
      | Some (s0 :: r) =>
          let spk := map strip (s0 :: r) in
          [ScheduleSpeakers spk;
           ProbeStatus ("Loaded " ++ Cli.str (length spk) ++ " speakers from model")]
      | _ =>
          [ScheduleSpeakers []; ProbeStatus "No speakers available for this model"]
      end
  end.

(** The states the worker puts the Generate button in, in order. *)
Fixpoint button_states (tr : list action) : list string :=
  match tr with
  | [] => []
  | ButtonState st :: r => st :: button_states r
  | _ :: r => button_states r
  end.

(** The combobox after the scheduled updates of a probe have run. *)
Fixpoint box_after (tr : list probe_action) (box : speaker_box) : speaker_box :=
  match tr with
  | [] => box
  | ScheduleSpeakers spk :: r => box_after r (_set_speakers_ui spk)
  | ProbeStatus _ :: r => box_after r box
  end.

Inductive choice_action : Type :=
| CustomEntry (state : string)                   (* model_custom_entry.config *)
| ResetSpeakers (box : speaker_box)
| StartProbe (model_name : string).              (* the probing thread *)

(** Lines 206-226. *)
Definition on_model_choice_changed (model_choice_var : string)
    : list choice_action :=
  let sel := strip model_choice_var in
  if startswith sel "Other" then
    [CustomEntry "normal";
     ResetSpeakers {| box_values := []; box_state := "disabled"; box_selection := "" |}]
  else
    let model_name :=
      if startswith sel "C3Imaging/" then "C3Imaging/child_tts_fastpitch"
      else "tts_models/en/vctk/vits" in
    [CustomEntry "disabled"; StartProbe model_name].

End Form.

(** ** Concrete forms *)

Module FormExamples.
Import Form.

(** A form with padded text, a blank custom model, an unreadable speed
    and no output name. *)
Definition form_hello : form :=
  {| txt := " Hello there "; emotion_var := "happy"; child_var := true;
     model_choice_var := "Other (enter manually)"; model_custom_var := "  ";
     speed_var := None; pitch_var := Some 0%Q; energy_var := Some 1%Q;
     trem_rate_var := Some 5%Q; trem_depth_var := Some 0%Q;
     reverb_var := Some 0%Q; brightness_var := Some 0%Q; out_var := "" |}.

(** The worker arguments of that form, clicked at time 1700000000. *)
Definition args_hello : thread_args :=
  {| a_text := "Hello there"; a_emotion := "happy";
     a_out := "child_output_1700000000.wav"; a_model_name := None;
     a_child_mode := true; a_global_speed := 1%Q; a_pitch := 0%Q;
     a_energy := 1%Q; a_trem_rate := 5%Q; a_trem_depth := 0%Q;
     a_reverb_amt := 0%Q; a_brightness := 0%Q |}.

(** A probe of a model with two speakers, the first one padded. *)
Definition two_speakers (model_name : string) : option (list string) :=
  Some [" p225 "; "p226"].

End FormExamples.

(** * Properties *)

(** ** Strings *)

Module PyStrFacts.
Import PyStr.

Lemma lower_char_idem (c : ascii) : lower_char (lower_char c) = lower_char c.
Proof. destruct c as [[] [] [] [] [] [] [] []]; reflexivity. Qed.

Lemma upper_char_idem (c : ascii) : upper_char (upper_char c) = upper_char c.
Proof. destruct c as [[] [] [] [] [] [] [] []]; reflexivity. Qed.

Lemma lower_idem (s : string) : lower (lower s) = lower s.
Proof.
  induction s as [|c r IH]; [reflexivity|].
  unfold lower in *; simpl. now rewrite lower_char_idem, IH.
Qed.

Lemma upper_idem (s : string) : upper (upper s) = upper s.
Proof.
  induction s as [|c r IH]; [reflexivity|].
  unfold upper in *; simpl. now rewrite upper_char_idem, IH.
Qed.

End PyStrFacts.

(** ** The speaker-gender table *)

Module GendersFacts.
Import PyStr PyStrFacts Genders Obs Spec Examples.












End GendersFacts.

(** ** Binary64 comparisons *)

Module FloatFacts.
Import Obs.

Lemma SFcompare_refl (p : spec_float) : p <> S754_nan -> SFcompare p p = Some Eq.
Proof.
  destruct p as [s|s| |s m e]; intros H; try congruence; simpl.
  - now destruct s.
  - now destruct s.
  - destruct s; rewrite Z.compare_refl, Pos.compare_cont_refl; reflexivity.
Qed.

Lemma is_nan_Prim2SF (x : float) : is_nan x = true <-> Prim2SF x = S754_nan.
Proof.
  unfold is_nan. rewrite negb_true_iff, FloatAxioms.eqb_spec. unfold SFeqb. split.
  - intros H. destruct (Prim2SF x) eqn:Hp; try reflexivity;
      rewrite SFcompare_refl in H by discriminate; discriminate.
  - intros ->. reflexivity.
Qed.

Lemma not_nan_Prim2SF (x : float) : is_nan x = false -> Prim2SF x <> S754_nan.
Proof. intros H Hn. apply is_nan_Prim2SF in Hn. congruence. Qed.

Lemma SFcompare_antisym (p q : spec_float) :
  SFcompare q p = option_map CompOpp (SFcompare p q).
Proof.
  destruct p as [s1|s1| |s1 m1 e1], q as [s2|s2| |s2 m2 e2]; simpl;
    try reflexivity;
    try (destruct s1, s2; reflexivity); try (destruct s1; reflexivity);
    try (destruct s2; reflexivity).
  destruct s1, s2; simpl; try reflexivity;
    rewrite (Z.compare_antisym e1 e2);
    destruct (e1 ?= e2)%Z; simpl; try reflexivity;
    rewrite (Pos.compare_cont_antisym m1 m2 Eq); simpl;
    destruct (Pos.compare_cont Eq m1 m2); reflexivity.
Qed.

Lemma SFcompare_none (p q : spec_float) :
  SFcompare p q = None -> p = S754_nan \/ q = S754_nan.
Proof. destruct p, q; simpl; auto; discriminate. Qed.

Lemma compare_cases (x y : float) : compared x y.
Proof.
  pose proof (SFcompare_antisym (Prim2SF x) (Prim2SF y)) as Ha.
  assert (Hnan : forall z, Prim2SF z <> S754_nan -> is_nan z = false).
  { intros z Hz. destruct (is_nan z) eqn:Hn; [|reflexivity].
    apply is_nan_Prim2SF in Hn. contradiction. }
  destruct (SFcompare (Prim2SF x) (Prim2SF y)) as [c|] eqn:Hc.
  - assert (Hx : Prim2SF x <> S754_nan)
      by (intros H; rewrite H in Hc; discriminate).
    assert (Hy : Prim2SF y <> S754_nan)
      by (intros H; rewrite H in Hc; destruct (Prim2SF x); discriminate).
    destruct c; simpl in Ha;
      [apply cmp_eq | apply cmp_lt | apply cmp_gt];
      rewrite ?ltb_spec, ?leb_spec; unfold SFltb, SFleb;
      rewrite ?Ha, ?Hc; auto.
  - simpl in Ha. apply cmp_nan;
      rewrite ?ltb_spec, ?leb_spec; unfold SFltb, SFleb;
      rewrite ?Ha, ?Hc; auto.
    destruct (SFcompare_none _ _ Hc) as [H | H];
      apply is_nan_Prim2SF in H; auto.
Qed.

(** A float that compares equal to a number other than zero is that
    number. *)
Lemma compare_eq_finite (x y : float) (s : bool) (m : positive) (e : Z) :
  Prim2SF y = S754_finite s m e ->
  SFcompare (Prim2SF x) (Prim2SF y) = Some Eq -> x = y.
Proof.
  intros Hy Hc. apply Prim2SF_inj. rewrite Hy in *.
  destruct (Prim2SF x) as [s1|s1| |s1 m1 e1]; simpl in Hc;
    try discriminate;
    try (destruct s; discriminate); try (destruct s1; discriminate).
  destruct s1, s; try discriminate;
    destruct (e1 ?= e)%Z eqn:He; try discriminate;
    apply Z.compare_eq in He; subst;
    destruct (Pos.compare_cont Eq m1 m) eqn:Hm; try discriminate;
    apply Pos.compare_eq in Hm; subst; reflexivity.
Qed.

(** The product of a positive number and a speed that is not above zero
    is not above zero. *)
Lemma mul_not_positive (k gs : float) (mk : positive) (ek : Z) :
  Prim2SF k = S754_finite false mk ek ->
  (gs <=? 0)%float = true -> (0 <? k * gs)%float = false.
Proof.
  intros Hk. rewrite leb_spec, ltb_spec, mul_spec, Hk.
  change (Prim2SF 0) with (S754_zero false).
  unfold SFleb, SFltb, SF64mul, SFmul.
  destruct (Prim2SF gs) as [s|s| |s m e]; simpl; try discriminate.
  - now destruct s.
  - destruct s; [reflexivity | discriminate].
  - destruct s; [intros _ | discriminate].
    unfold binary_round_aux.
    destruct (shr_fexp _ _ _ _ _) as [mrs e'].
    destruct (shr_fexp _ _ _ _ _) as [mrs2 e2].
    destruct (shr_m mrs2); [reflexivity | | reflexivity].
    destruct (_ <=? _)%Z; reflexivity.
Qed.

End FloatFacts.

(** ** Comparisons and clipping *)

Module NpFacts.
Import Py Np Obs Spec FloatFacts.

(** A positive multiple of a speed that is not above zero does not pass
    the second test of the guard. *)
Lemma rate_not_positive (k speed : float) :
  positive_finite k -> (speed <=? 0)%float = true -> gt (k * speed) 0 = false.
Proof.
  intros (m & e & Hk) Hs. unfold gt. now apply (mul_not_positive k speed m e).
Qed.

(** [np.clip] to [-1, 1] is the hard clip, sample by sample. *)
Lemma clip_sample (x : float) : minimum 1 (maximum x (-1)) = hard_clip x.
Proof.
  unfold minimum, maximum, hard_clip.
  change (is_nan 1) with false. rewrite orb_false_r.
  destruct (compare_cases x (-1)) as [Hn H1 H2 H3 H4 | Hx _ H1 H2 H3 H4
                                     | Hx _ Hc H1 H2 H3 H4 | Hx _ H1 H2 H3 H4];
    rewrite ?H1, ?H4.
  - destruct Hn as [Hn | Hn]; [|discriminate Hn].
    rewrite Hn. cbn [orb].
    destruct (compare_cases 1 x) as [_ G1 G2 _ _ | _ G G1 _ _ _
                                    | _ G _ _ _ _ _ | _ G _ _ _ _];
      try congruence.
    now rewrite G1, G2.
  - rewrite Hx. reflexivity.
  - rewrite (compare_eq_finite x (-1) true 4503599627370496 (-52) eq_refl Hc).
    reflexivity.
  - cbn [orb].
    destruct (compare_cases 1 x) as [_ G1 G2 _ _ | _ _ G1 G2 _ _
                                    | _ _ Gc G1 G2 _ _ | _ _ G1 G2 _ _];
      rewrite G1, G2; try reflexivity.
    apply eq_sym.
    apply (compare_eq_finite x 1 false 4503599627370496 (-52) eq_refl).
    rewrite SFcompare_antisym, Gc. reflexivity.
Qed.

Lemma clip_hard_clip (a : list float) : clip a (-1) 1 = map hard_clip a.
Proof. unfold clip. apply map_ext. intros x. apply clip_sample. Qed.

(** A clipped sample is neither below -1 nor above 1. *)
Lemma hard_clip_not_beyond (x : float) : not_beyond (hard_clip x).
Proof.
  unfold hard_clip, not_beyond.
  destruct (x <? -1)%float eqn:H1; [split; reflexivity |].
  destruct (1 <? x)%float eqn:H2; [split; reflexivity |].
  split; assumption.
Qed.

(** A clipped number lies in [-1, 1]. *)
Lemma hard_clip_in_range (x : float) :
  is_nan x = false -> in_range (hard_clip x).
Proof.
  intros Hx. unfold hard_clip, in_range.
  destruct (x <? -1)%float eqn:H1; [split; reflexivity |].
  destruct (1 <? x)%float eqn:H2; [split; reflexivity |].
  split.
  - destruct (compare_cases x (-1)) as [[Hn | Hn] | | |];
      try congruence; discriminate Hn.
  - destruct (compare_cases 1 x) as [[Hn | Hn] | | |];
      try congruence; discriminate Hn.
Qed.

(** NaN goes through the clip. *)
Lemma hard_clip_nan (x : float) : is_nan x = true -> hard_clip x = x.
Proof.
  intros Hx. unfold hard_clip.
  destruct (compare_cases x (-1)) as [_ H1 _ _ _ | | |]; try congruence.
  destruct (compare_cases 1 x) as [_ H2 _ _ _ | | |]; try congruence.
  now rewrite H1, H2.
Qed.

Lemma hard_clip_is_nan (x : float) : is_nan (hard_clip x) = is_nan x.
Proof.
  destruct (is_nan x) eqn:Hx.
  - now rewrite hard_clip_nan.
  - unfold hard_clip.
    destruct (x <? -1)%float; [reflexivity |].
    destruct (1 <? x)%float; [reflexivity | exact Hx].
Qed.

Lemma scale_length (a : list float) (g : float) : length (scale a g) = length a.
Proof. unfold scale. apply length_map. Qed.

End NpFacts.

(** ** Invariants of the call log *)

Module LogFacts.
Import Py Obs.

Section Keeps.
Variable P : event -> Prop.

Lemma keeps_ret {A} (a : A) : keeps P (ret a).
Proof. intros s H. exact H. Qed.

Lemma keeps_raise {A} (e : exn) : keeps P (@raise A e).
Proof. intros s H. exact H. Qed.

Lemma keeps_bind {A B} (m : M A) (k : A -> M B) :
  keeps P m -> (forall a, keeps P (k a)) -> keeps P (bind m k).
Proof.
  intros Hm Hk s H. unfold bind. specialize (Hm s H).
  destruct (m s) as [[a|e] s']; simpl in *; [now apply Hk | exact Hm].
Qed.

Lemma keeps_try {A} (m : M A) (h : exn -> M A) :
  keeps P m -> (forall e, keeps P (h e)) -> keeps P (try_except m h).
Proof.
  intros Hm Hh s H. unfold try_except. specialize (Hm s H).
  destruct (m s) as [[a|e] s']; simpl in *; [exact Hm | now apply Hh].
Qed.

Lemma keeps_try_TypeError {A} (m h : M A) :
  keeps P m -> keeps P h -> keeps P (try_except_TypeError m h).
Proof.
  intros Hm Hh s H. unfold try_except_TypeError. specialize (Hm s H).
  destruct (m s) as [[a|[|]] s']; simpl in *; auto.
Qed.

Lemma keeps_call {A} (ev : event) (r : result A) :
  P ev -> keeps P (call ev r).
Proof.
  intros Hev s H. unfold call. simpl.
  apply Forall_app. split; [exact H | now constructor].
Qed.

Lemma keeps_create_file (p : string) : keeps P (create_file p).
Proof. intros s H. exact H. Qed.

Lemma keeps_delete_file (p : string) : keeps P (delete_file p).
Proof. intros s H. exact H. Qed.

Lemma keeps_path_exists (p : string) : keeps P (path_exists p).
Proof. intros s H. exact H. Qed.

Lemma keeps_lift {A} (r : result A) : keeps P (fun s => (r, s)).
Proof. intros s H. exact H. Qed.

End Keeps.

Lemma bind_ext {A B} (m : M A) (k1 k2 : A -> M B) (s : state) :
  (forall a s', k1 a s' = k2 a s') -> bind m k1 s = bind m k2 s.
Proof.
  intros H. unfold bind. destruct (m s) as [[a|e] s']; [apply H | reflexivity].
Qed.

End LogFacts.

(** ** The emotion branches and the pipeline *)

Module TtsFacts.
Import PyStr PyStrFacts Py Np FloatFacts NpFacts Tts Obs Audit Spec LogFacts Examples.
Local Open Scope py_scope.

(** Decide the comparisons of string literals that select a branch. *)
Ltac eval_eqb :=
  repeat match goal with
    | |- context [String.eqb ?x ?y] =>
        let b := eval vm_compute in (String.eqb x y) in
        change (String.eqb x y) with b
    | H : context [String.eqb ?x ?y] |- _ =>
        let b := eval vm_compute in (String.eqb x y) in
        change (String.eqb x y) with b in H
    end;
  cbv iota in *.

(** The multipliers of the branches are positive numbers. *)
Ltac positive_multiplier := do 2 eexists; vm_compute; reflexivity.

Lemma time_stretch_calls_app (l1 l2 : list event) :
  time_stretch_calls (l1 ++ l2) = (time_stretch_calls l1 ++ time_stretch_calls l2)%list.
Proof.
  induction l1 as [|ev l1 IH]; [reflexivity|].
  destruct ev; simpl; now rewrite ?IH.
Qed.

Lemma stretch_guard_iff (audio : list float) (sr : Z) (r : float) :
  stretch_guard audio sr r = true <->
  (len audio > sr)%Z /\ (0.01 <? abs (r - 1))%float = true /\ (0 <? r)%float = true.
Proof.
  unfold stretch_guard, gt.
  rewrite !andb_true_iff, Z.gtb_gt. tauto.
Qed.

(** *** Which branch runs *)

Lemma apply_emotion_lower (E : env) (emotion : string) (a : list float) (sr : Z)
    (gs : float) (s : state) :
  apply_emotion E emotion a sr gs s = apply_emotion E (lower emotion) a sr gs s.
Proof. unfold apply_emotion. now rewrite lower_idem. Qed.

Lemma apply_emotion_unknown (E : env) (emotion : string) (a : list float) (sr : Z)
    (gs : float) (s : state) :
  ~ In (lower emotion) available_emotions ->
  apply_emotion E emotion a sr gs s = (Ok a, s).
Proof.
  intros Hn. unfold apply_emotion.
  repeat match goal with
    | |- context [String.eqb (lower emotion) ?l] =>
        destruct (String.eqb_spec (lower emotion) l) as [Heq | _];
        [exfalso; apply Hn; rewrite Heq; simpl; tauto |]
    end.
  reflexivity.
Qed.

(** Case analysis of a run of the emotion branches, once the label is
    known or its tests are destructed: the outcome of the pitch stage,
    the length test, the guard, the outcome of the stretch. *)
Ltac branch_cases E a sr :=
  unfold bind, try_except, librosa_effects_pitch_shift,
    librosa_effects_time_stretch, call, ret; cbn [fst snd files calls];
  try (destruct (pitch_shift E a sr _) as [?a1|?e] eqn:?Hpitch;
       cbn [fst snd files calls]);
  try match goal with
    | |- context [(len ?x >? sr)%Z] => destruct (len x >? sr)%Z eqn:?Hlen
    end; cbn [andb fst snd files calls];
  try match goal with
    | |- context [if ?b then _ else _] => destruct b eqn:?Hg
    end; cbn [fst snd files calls];
  try match goal with
    | |- context [time_stretch E ?x ?y] =>
        destruct (time_stretch E x y) as [?a2|?e] eqn:?Hstretch
    end; cbn [fst snd files calls].

Lemma apply_emotion_chain (E : env) (emotion : string) (a : list float) (sr : Z)
    (gs : float) (s : state) :
  In (lower emotion) available_emotions ->
  pitch_returns E (profile (lower emotion)) a sr ->
  apply_emotion E emotion a sr gs s = chain E (profile (lower emotion)) a sr gs s.
Proof.
  intros Hin Hp. unfold apply_emotion, profile in *.
  simpl in Hin.
  destruct Hin as [H|[H|[H|[H|[H|[H|[H|[]]]]]]]]; rewrite <- H in *; eval_eqb;
    unfold pitch_returns in Hp; simpl in Hp;
    try (destruct (Hp _ eq_refl) as [a1 Ha1]);
    unfold chain, stage, bind, try_except, librosa_effects_pitch_shift,
      librosa_effects_time_stretch, call, ret, stretch_guard;
    cbn [pitch rate gain fst snd]; rewrite ?Ha1;
    try reflexivity;
    destruct (len a1 >? sr)%Z; cbn [andb];
    repeat match goal with
      | |- context [gt ?x ?y] => destruct (gt x y); cbn [andb]
      end;
    try reflexivity;
    match goal with
    | |- context [time_stretch E ?x ?y] => destruct (time_stretch E x y)
    end; reflexivity.
Qed.

(** The sad branch is the chain of its profile whatever its pitch stage
    does: both of its stages are inside a [try]. *)
Lemma sad_chain (E : env) (emotion : string) (a : list float) (sr : Z)
    (gs : float) (s : state) :
  lower emotion = "sad" ->
  apply_emotion E emotion a sr gs s = chain E (profile (lower emotion)) a sr gs s.
Proof.
  intros Hsad. unfold apply_emotion, profile. rewrite Hsad. eval_eqb.
  unfold chain, stage, bind, try_except, librosa_effects_pitch_shift,
    librosa_effects_time_stretch, call, ret, stretch_guard;
    cbn [pitch rate gain fst snd].
  destruct (pitch_shift E a sr (-3)) as [a1|e]; cbn [fst snd];
    match goal with
    | |- context [(len ?x >? sr)%Z] => destruct (len x >? sr)%Z
    end; cbn [andb];
    repeat match goal with
      | |- context [gt ?x ?y] => destruct (gt x y); cbn [andb]
      end;
    try reflexivity;
    match goal with
    | |- context [time_stretch E ?x ?y] => destruct (time_stretch E x y)
    end; reflexivity.
Qed.

(** *** A run of the chain of a profile with a time-stretch stage *)

Lemma chain_run (E : env) (p : EmotionProfile) (n : Z) (k : float)
    (a a1 : list float) (sr : Z) (gs : float) (s : state) :
  pitch p = Some n -> rate p = Some k ->
  (pitch_shift E a sr n = Ok a1
   \/ (a1 = a /\ exists e, pitch_shift E a sr n = Raise e)) ->
  exists a2,
    chain E p a sr gs s =
      (Ok match gain p with Some g => scale a2 g | None => a2 end,
       mkState (files s)
         (calls s ++ CallPitchShift sr n ::
            if stretch_guard a1 sr (k * gs)
            then [CallTimeStretch (k * gs)%float] else []))
    /\ (stretch_guard a1 sr (k * gs) = false -> a2 = a1).
Proof.
  intros Hp Hr Ha.
  unfold chain, stage, bind, try_except, librosa_effects_pitch_shift,
    librosa_effects_time_stretch, call, ret.
  rewrite Hp, Hr.
  destruct Ha as [Ha | (-> & e & Ha)]; rewrite Ha; cbn [files calls];
    match goal with
    | |- context [stretch_guard ?x sr (k * gs)] =>
        destruct (stretch_guard x sr (k * gs));
        [ match goal with
          | |- context [time_stretch E ?y ?r] =>
              destruct (time_stretch E y r) as [a2|e2]; cbn [files calls];
              [exists a2 | exists x]; rewrite <- app_assoc; split; auto;
              discriminate
          end
        | exists x; split; reflexivity ]
    end.
Qed.

Lemma rate_some_available (label : string) (k : float) :
  rate (profile label) = Some k ->
  In label stretching /\ positive_finite k
  /\ exists n, pitch (profile label) = Some n.
Proof.
  unfold profile, stretching.
  repeat match goal with
    | |- context [String.eqb label ?l] =>
        destruct (String.eqb_spec label l) as [-> | _]
    end; cbn [rate pitch]; intros H; inversion H; subst;
    (split; [simpl; tauto
            | split; [positive_multiplier | eexists; reflexivity]]).
Qed.

Lemma stretching_available (label : string) :
  In label stretching -> In label available_emotions.
Proof. unfold stretching, available_emotions. simpl. tauto. Qed.

(** *** What the call log can contain *)

Ltac keeps_step :=
  cbv zeta;
  match goal with
  | |- keeps _ (bind _ _) => apply keeps_bind; [|intros]
  | |- keeps _ (try_except _ _) => apply keeps_try; [|intros]
  | |- keeps _ (try_except_TypeError _ _) => apply keeps_try_TypeError
  | |- keeps _ (ret _) => apply keeps_ret
  | |- keeps _ (raise _) => apply keeps_raise
  | |- keeps _ (create_file _) => apply keeps_create_file
  | |- keeps _ (delete_file _) => apply keeps_delete_file
  | |- keeps _ (path_exists _) => apply keeps_path_exists
  | |- keeps _ (call _ _) => apply keeps_call
  | |- keeps _ (librosa_effects_pitch_shift _ _ _ _) =>
      unfold librosa_effects_pitch_shift
  | |- keeps _ (librosa_effects_time_stretch _ _ _) =>
      unfold librosa_effects_time_stretch
  | |- keeps _ (soundfile_write _ _ _ _ _) => unfold soundfile_write
  | |- keeps _ (cleanup _ _) => unfold cleanup
  | |- keeps _ (if ?b then _ else _) => destruct b eqn:?
  | |- keeps _ (match ?x with _ => _ end) => destruct x eqn:?
  | |- keeps _ (fun s => (_, s)) => apply keeps_lift
  end.

(** The branches only call [pitch_shift], and [time_stretch] at a rate
    above zero that is a positive multiple of [global_speed]. *)
Lemma apply_emotion_keeps (P : event -> Prop) (E : env) (emotion : string)
    (a : list float) (sr : Z) (gs : float) :
  (forall n, P (CallPitchShift sr n)) ->
  (forall k, positive_finite k -> gt (k * gs) 0 = true ->
             P (CallTimeStretch (k * gs)%float)) ->
  keeps P (apply_emotion E emotion a sr gs).
Proof.
  intros Hp Hs. unfold apply_emotion.
  repeat keeps_step; auto;
    match goal with
    | H : _ && gt (?k * gs) 0 = true |- _ =>
        apply andb_true_iff in H as [_ H];
        apply Hs; [positive_multiplier | exact H]
    end.
Qed.

Lemma finalize_hard_clip (buf : list float) :
  finalize buf = map (fun x => hard_clip (float32 x)) buf.
Proof. unfold finalize. rewrite clip_hard_clip. apply map_map. Qed.

Lemma finalize_in_range (audio : list float) :
  Forall (fun y => not_beyond y /\ (is_nan y = false -> in_range y))
    (finalize audio).
Proof.
  rewrite finalize_hard_clip. apply Forall_map, Forall_forall.
  intros x _. split; [apply hard_clip_not_beyond |].
  rewrite hard_clip_is_nan. apply hard_clip_in_range.
Qed.

Lemma create_keeps (P : event -> Prop) (E : env)
    (text emotion output_file : string) (speaker : option string)
    (tts_instance : option tts_model) (speaker_gender : option string)
    (gs : float) :
  (forall t sp p, P (CallSynth t sp p)) ->
  (forall p, P (CallLoad p)) ->
  (forall sr n, P (CallPitchShift sr n)) ->
  (forall k, positive_finite k -> gt (k * gs) 0 = true ->
             P (CallTimeStretch (k * gs)%float)) ->
  (forall f buf sr sub, P (CallWrite f (finalize buf) sr sub)) ->
  (forall p, P (CallRemove p)) ->
  keeps P (create_emotional_tts E text emotion output_file speaker tts_instance
             speaker_gender gs).
Proof.
  intros Hsy Hl Hp Hs Hw Hr. unfold create_emotional_tts.
  repeat first [apply apply_emotion_keeps | keeps_step]; auto.
Qed.

Lemma no_stretch_calls (l : list event) :
  Forall no_stretch l -> time_stretch_calls l = [].
Proof.
  induction 1 as [|ev l Hev _ IH]; [reflexivity|].
  destruct ev; simpl in *; auto; contradiction.
Qed.

(** *** The pipeline depends on the label through its branch only *)

Lemma create_ext (E : env) (text e1 e2 output_file : string)
    (speaker : option string) (tts_instance : option tts_model)
    (speaker_gender : option string) (gs : float) (s : state) :
  (forall a sr s', apply_emotion E e1 a sr gs s' = apply_emotion E e2 a sr gs s') ->
  create_emotional_tts E text e1 output_file speaker tts_instance speaker_gender gs s
  = create_emotional_tts E text e2 output_file speaker tts_instance speaker_gender gs s.
Proof.
  intros H. unfold create_emotional_tts.
  apply bind_ext. intros tts s1. cbv zeta.
  apply bind_ext. intros _ s2.
  apply bind_ext. intros [audio sr] s3.
  unfold bind at 1 3. now rewrite H.
Qed.

(** *** The shape of a run *)

Lemma state_eta (s : state) : s = mkState (files s) (calls s ++ []).
Proof. destruct s; simpl. now rewrite app_nil_r. Qed.

(** What a run of the emotion branches does to the state: the disk is
    left alone and the log grows by [effect_calls]. *)
Lemma apply_emotion_shape (E : env) (emotion : string) (a : list float) (sr : Z)
    (gs : float) (s : state) :
  exists d,
    snd (apply_emotion E emotion a sr gs s) = mkState (files s) (calls s ++ d)
    /\ effect_calls sr gs d
    /\ (forall e, fst (apply_emotion E emotion a sr gs s) = Raise e ->
        exists n, d = [CallPitchShift sr n]).
Proof.
  unfold apply_emotion.
  repeat match goal with
    | |- context [String.eqb (lower emotion) ?l] =>
        destruct (String.eqb (lower emotion) l)
    end;
    branch_cases E a sr;
    try (exists []; split; [apply state_eta | split; [now left | discriminate]]);
    try (eexists [CallPitchShift sr _]; split;
         [reflexivity | split; [right; left; eauto | eauto]]);
    (eexists [CallPitchShift sr _; CallTimeStretch _]; split;
     [now rewrite <- app_assoc
     | split; [| discriminate];
       right; right; do 2 eexists; split; [reflexivity |];
       apply andb_true_iff in Hg as [Hg1 Hg2]; split; assumption]).
Qed.

(** The buffer a run of the branches returns, or the exception it ends
    in, does not depend on the state it starts from. *)
Lemma apply_emotion_value (E : env) (emotion : string) (a : list float) (sr : Z)
    (gs : float) (s s' : state) :
  fst (apply_emotion E emotion a sr gs s) = fst (apply_emotion E emotion a sr gs s').
Proof.
  unfold apply_emotion.
  repeat match goal with
    | |- context [String.eqb (lower emotion) ?l] =>
        destruct (String.eqb (lower emotion) l)
    end;
    branch_cases E a sr; reflexivity.
Qed.

(** Case analysis of a run of [create_emotional_tts], following the
    order of its calls. *)
Ltac run_step :=
  cbn [fst snd files calls of_outcome];
  first
    [ match goal with
      | |- context [tts_to_file ?t ?a ?b ?c] =>
          destruct (tts_to_file t a b c) as [[|]|] eqn:?
      end
    | match goal with
      | |- context [tts_to_file_text_only ?t ?a ?b] =>
          destruct (tts_to_file_text_only t a b) as [[|]|] eqn:?
      end
    | match goal with
      | |- context [librosa_load ?E ?p] =>
          destruct (librosa_load E p) as [[? ?]|?] eqn:?
      end
    | match goal with
      | |- context [apply_emotion ?E ?em ?a ?sr ?gs ?s] =>
          let d := fresh "d" in
          let Hs := fresh "Hs" in
          let Hd := fresh "Hd" in
          let Hr := fresh "Hr" in
          let Hrun := fresh "Hrun" in
          destruct (apply_emotion_shape E em a sr gs s) as (d & Hs & Hd & Hr);
          destruct (apply_emotion E em a sr gs s) as [[?|?] ?] eqn:Hrun;
          cbn [fst snd files calls] in Hs, Hr; subst
      end
    | match goal with
      | |- context [sf_write ?E ?f ?d ?sr (Some ?x)] =>
          destruct (sf_write E f d sr (Some x)) as [[|]|] eqn:?
      end
    | match goal with
      | |- context [sf_write ?E ?f ?d ?sr None] =>
          destruct (sf_write E f d sr None) as [[|]|] eqn:?
      end
    | match goal with
      | |- context [bool_decide (?p ∈ ?X)] =>
          destruct (bool_decide (p ∈ X)) eqn:?
      end
    | match goal with
      | |- context [os_remove ?E ?p] =>
          destruct (os_remove E p) as [?|] eqn:?
      end ].

Ltac decide_files :=
  repeat match goal with
    | H : bool_decide _ = true |- _ => apply bool_decide_eq_true in H
    | H : bool_decide _ = false |- _ => apply bool_decide_eq_false in H
    end.

Ltac files_solver :=
  decide_files;
  repeat match goal with
    | H : context [_ ∈ _ ∪ _] |- _ => rewrite elem_of_union in H
    | H : context [_ ∈ _ ∖ _] |- _ => rewrite elem_of_difference in H
    | H : context [_ ∈ {[ _ ]}] |- _ => rewrite elem_of_singleton in H
    end;
  repeat first [ rewrite elem_of_union | rewrite elem_of_difference
               | rewrite elem_of_singleton ];
  intuition congruence.

Ltac split_effects :=
  repeat match goal with
    | H : effect_calls _ _ _ |- _ =>
        destruct H as [-> | [[? ->] | (? & ? & -> & ? & ?)]]
    end.

Ltac run_cases :=
  unfold run, create_emotional_tts, cleanup, soundfile_write;
  unfold bind, try_except, try_except_TypeError, call, create_file,
    delete_file, path_exists, ret, raise;
  match goal with
  | ti : option tts_model |- _ => destruct ti as [?|]
  end;
  [| match goal with
     | |- context [TTS_vctk_vits ?E] =>
         destruct (TTS_vctk_vits E) as [?|?] eqn:?
     end ];
  repeat run_step;
  cbn [fst snd files calls of_outcome].

(** In a run that gets as far as the effect chain, the branch runs on the
    mono reduction of the loaded waveform, and what [sf.write] is given,
    with subtype PCM_16 and then, after a [TypeError], without, is the
    cast and clipped output of the branch, at the loaded sample rate. *)
Lemma create_writes (E : env) (text emotion output_file : string)
    (speaker : option string) (tts_instance : option tts_model)
    (speaker_gender : option string) (gs : float) (disk : gset string)
    (audio : ndarray) (sr : Z) (out : list float) :
  loaded E text speaker tts_instance audio sr ->
  fst (run (apply_emotion E emotion (to_mono E audio) sr gs) ∅) = Ok out ->
  exists rest,
    write_calls
      (calls (snd (run (create_emotional_tts E text emotion output_file speaker
                          tts_instance speaker_gender gs) disk)))
    = (output_file, finalize out, sr, Some "PCM_16") :: rest
    /\ (rest = [] \/ rest = [(output_file, finalize out, sr, None)]).
Proof.
  intros (tts & Hti & Hsyn & Hload) Hout. unfold run in Hout.
  assert (Hval : forall s, fst (apply_emotion E emotion (to_mono E audio) sr gs s)
                           = Ok out)
    by (intros s; now rewrite (apply_emotion_value E emotion _ sr gs s (mkState ∅ []))).
  clear Hout. cbv zeta in Hsyn.
  run_cases;
    destruct Hti as [Hti | [Hti Hb]]; try discriminate Hti;
    repeat match goal with
      | H : Ok _ = Ok _ |- _ => inversion H; subst; clear H
      | H : Some _ = Some _ |- _ => inversion H; subst; clear H
      end;
    try congruence;
    try (destruct Hsyn as [Hsyn | [Hsyn Hsyn2]]; congruence);
    match goal with
    | H1 : apply_emotion E emotion _ _ _ ?s = _ |- _ =>
        pose proof (Hval s) as Hv; rewrite H1 in Hv; cbn [fst] in Hv;
        try discriminate Hv; inversion Hv; subst
    end;
    split_effects; cbn [app write_calls]; eauto.
Qed.

(** C1. For a supported label in any casing, and a waveform on which the
    pitch stage returns, the branch of [create_emotional_tts] is the chain
    of the label's profile of section 4.1: pitch-shift by the profile's
    semitones, then time-stretch at multiplier times [global_speed] under
    the guard, then the profile's gain. The label is read through
    [lower]: a label and its lower-casing give the same branch and the
    same run of the whole function. The guard holds only for a buffer
    longer than the sample rate and a rate further than 0.01 from 1. And
    the function applies that chain to the loaded waveform: in a run in
    which synthesis and loading return, what [sf.write] is given, at the
    loaded sample rate, is the output of the chain on the mono reduction
    of the loaded waveform, cast and clipped. *)
Theorem emotion_profile_applied (E : env) (emotion : string) :
  (In (lower emotion) available_emotions ->
   forall a sr gs s,
     pitch_returns E (profile (lower emotion)) a sr ->
     apply_emotion E emotion a sr gs s
     = chain E (profile (lower emotion)) a sr gs s) /\
  (forall a sr gs s,
     apply_emotion E emotion a sr gs s
     = apply_emotion E (lower emotion) a sr gs s) /\
  (forall text output_file speaker tts_instance speaker_gender gs s,
     create_emotional_tts E text emotion output_file speaker tts_instance
       speaker_gender gs s
     = create_emotional_tts E text (lower emotion) output_file speaker tts_instance
         speaker_gender gs s) /\
  (forall audio sr r,
     stretch_guard audio sr r = true ->
     (len audio > sr)%Z /\ (0.01 <? abs (r - 1))%float = true) /\
  (In (lower emotion) available_emotions ->
   forall text output_file speaker tts_instance speaker_gender gs disk audio sr,
     loaded E text speaker tts_instance audio sr ->
     pitch_returns E (profile (lower emotion)) (to_mono E audio) sr ->
     exists out rest,
       fst (run (chain E (profile (lower emotion)) (to_mono E audio) sr gs) ∅)
       = Ok out /\
       write_calls
         (calls (snd (run (create_emotional_tts E text emotion output_file speaker
                             tts_instance speaker_gender gs) disk)))
       = (output_file, finalize out, sr, Some "PCM_16") :: rest /\
       (rest = [] \/ rest = [(output_file, finalize out, sr, None)])).
Proof.
  split; [|split; [|split; [|split]]].
  - intros Hin a sr gs s Hp. now apply apply_emotion_chain.
  - intros. apply apply_emotion_lower.
  - intros. apply create_ext. intros. apply apply_emotion_lower.
  - intros audio sr r H. apply stretch_guard_iff in H. tauto.
  - intros Hin text output_file speaker tts_instance speaker_gender gs disk
      audio sr Hl Hp.
    pose proof (apply_emotion_chain E emotion (to_mono E audio) sr gs
                  (mkState ∅ []) Hin Hp) as Hc.
    destruct (apply_emotion_shape E emotion (to_mono E audio) sr gs (mkState ∅ []))
      as (d & _ & _ & Hr).
    destruct (fst (apply_emotion E emotion (to_mono E audio) sr gs (mkState ∅ [])))
      as [out|e] eqn:Hout.
    + destruct (create_writes E text emotion output_file speaker tts_instance
                  speaker_gender gs disk audio sr out Hl Hout) as (rest & Hw & Hrest).
      exists out, rest. unfold run. rewrite <- Hc. auto.
    + exfalso. rewrite Hc in Hout. revert Hout. clear -Hp.
      unfold chain, stage, bind, try_except, librosa_effects_pitch_shift,
        librosa_effects_time_stretch, call, ret.
      destruct (pitch (profile (lower emotion))) as [n|]; cbn [fst snd];
        [destruct (pitch_shift E (to_mono E audio) sr n); cbn [fst snd] |];
        (destruct (rate (profile (lower emotion))) as [k|]; cbn [fst snd];
         [ match goal with
           | |- context [stretch_guard ?x sr ?r] =>
               destruct (stretch_guard x sr r); cbn [fst snd];
               [destruct (time_stretch E x r); cbn [fst snd] |]
           end |]);
        discriminate.
Qed.

Lemma emotion_profile_applied_witness :
  In (lower "Happy") available_emotions /\
  loaded world_ok "hello" None None (Arr1 three_samples) 2 /\
  pitch_returns world_ok (profile (lower "Happy"))
    (to_mono world_ok (Arr1 three_samples)) 2 /\
  exists out rest,
    fst (run (chain world_ok (profile (lower "Happy"))
                (to_mono world_ok (Arr1 three_samples)) 2 1) ∅) = Ok out /\
    write_calls
      (calls (snd (run (create_emotional_tts world_ok "hello" "Happy" "out.wav"
                          None None None 1) ∅)))
    = ("out.wav", finalize out, 2%Z, Some "PCM_16") :: rest /\
    (rest = [] \/ rest = [("out.wav", finalize out, 2%Z, None)]).
Proof.
  assert (Hin : In (lower "Happy") available_emotions) by (vm_compute; tauto).
  assert (Hl : loaded world_ok "hello" None None (Arr1 three_samples) 2).
  { exists model_ok. split; [right; split; reflexivity |].
    split; [left; reflexivity | reflexivity]. }
  assert (Hp : pitch_returns world_ok (profile (lower "Happy"))
                 (to_mono world_ok (Arr1 three_samples)) 2)
    by (intros n _; eexists; reflexivity).
  split; [exact Hin | split; [exact Hl | split; [exact Hp |]]].
  exact (proj2 (proj2 (proj2 (proj2 (emotion_profile_applied world_ok "Happy"))))
           Hin "hello" "out.wav" None None None 1%float ∅ (Arr1 three_samples)
           2%Z Hl Hp).
Defined.

(** C5. A label that is none of the seven, in any casing, runs the
    neutral branch: the buffer comes back as it went in, no call is made,
    and the whole function runs as it does for "neutral". *)
Theorem unknown_label_is_neutral (E : env) (emotion : string) :
  ~ In (lower emotion) available_emotions ->
  (forall a sr gs s, apply_emotion E emotion a sr gs s = (Ok a, s)) /\
  (forall a sr gs s,
     apply_emotion E emotion a sr gs s = apply_emotion E "neutral" a sr gs s) /\
  (forall text output_file speaker tts_instance speaker_gender gs s,
     create_emotional_tts E text emotion output_file speaker tts_instance
       speaker_gender gs s
     = create_emotional_tts E text "neutral" output_file speaker tts_instance
         speaker_gender gs s).
Proof.
  intros Hn. split; [|split].
  - intros. now apply apply_emotion_unknown.
  - intros. now rewrite apply_emotion_unknown.
  - intros. apply create_ext. intros. now rewrite apply_emotion_unknown.
Qed.

Lemma unknown_label_is_neutral_witness :
  ~ In (lower "Furious") available_emotions /\
  create_emotional_tts world_ok "hello" "Furious" "out.wav" None None None 1
    (mkState ∅ [])
  = create_emotional_tts world_ok "hello" "neutral" "out.wav" None None None 1
      (mkState ∅ []).
Proof.
  assert (Hn : ~ In (lower "Furious") available_emotions)
    by (vm_compute; intuition discriminate).
  split; [exact Hn |].
  exact (proj2 (proj2 (unknown_label_is_neutral world_ok "Furious" Hn))
           "hello" "out.wav" None None None 1%float (mkState ∅ [])).
Defined.

(** *** The time-stretch stage *)

(** C4 (as amended). In a branch whose profile has a time-stretch stage
    (sad, happy, angry, calm, excited), with [a1] the buffer that reaches
    the stage (what the pitch stage returned or, in the sad branch after
    a pitch stage that raised, the input) and [r] the binary64 product of
    the multiplier and [global_speed]: [time_stretch] is called, once and
    at rate [r], exactly when [a1] has more samples than the sample rate,
    [r] is further than 0.01 from 1 and [r] is above zero; otherwise it
    is not called and the branch returns a buffer as long as [a1]. *)
Theorem stretch_applied_iff (E : env) (emotion : string) (n : Z) (k : float)
    (a a1 : list float) (sr : Z) (gs : float) (disk : gset string) :
  pitch (profile (lower emotion)) = Some n ->
  rate (profile (lower emotion)) = Some k ->
  reaches_stretch E emotion n a sr a1 ->
  (time_stretch_calls (calls (snd (run (apply_emotion E emotion a sr gs) disk)))
     = [(k * gs)%float]
   <-> (len a1 > sr)%Z /\ (0.01 <? abs (k * gs - 1))%float = true
       /\ (0 <? k * gs)%float = true) /\
  (~ ((len a1 > sr)%Z /\ (0.01 <? abs (k * gs - 1))%float = true
      /\ (0 <? k * gs)%float = true) ->
   time_stretch_calls (calls (snd (run (apply_emotion E emotion a sr gs) disk))) = []
   /\ exists o, fst (run (apply_emotion E emotion a sr gs) disk) = Ok o
               /\ length o = length a1).
Proof.
  intros Hp Hr Ha. unfold run.
  destruct (rate_some_available _ _ Hr) as (Hin & _ & _).
  assert (Hc : apply_emotion E emotion a sr gs (mkState disk [])
               = chain E (profile (lower emotion)) a sr gs (mkState disk [])).
  { destruct Ha as [Ha | (Hsad & _)].
    - apply apply_emotion_chain; [now apply stretching_available |].
      intros n' Hn'. rewrite Hp in Hn'. inversion Hn'; subst. eauto.
    - now apply sad_chain. }
  assert (Ha' : pitch_shift E a sr n = Ok a1
                \/ (a1 = a /\ exists e, pitch_shift E a sr n = Raise e))
    by (destruct Ha as [Ha | (_ & Ha)]; auto).
  rewrite Hc.
  destruct (chain_run E _ n k a a1 sr gs (mkState disk []) Hp Hr Ha')
    as (a2 & Heq & Hskip).
  rewrite Heq. cbn [fst snd calls app time_stretch_calls].
  rewrite <- stretch_guard_iff.
  destruct (stretch_guard a1 sr (k * gs)); cbn [time_stretch_calls].
  - split; [tauto | intros Hn; exfalso; now apply Hn].
  - split; [split; discriminate |].
    intros _. split; [reflexivity |].
    rewrite (Hskip eq_refl).
    destruct (gain (profile (lower emotion))); eexists; split;
      try reflexivity; apply scale_length.
Qed.

(** At a speed of 1.2625 the rate of the calm branch is the binary64
    product 0.8 * 1.2625 = 1.01, which is further from 1 than the
    binary64 number 0.01: the stage runs. *)
Lemma stretch_applied_iff_witness :
  pitch (profile (lower "Calm")) = Some (-1)%Z /\
  rate (profile (lower "Calm")) = Some 0.8%float /\
  reaches_stretch world_ok "Calm" (-1) three_samples 2 three_samples /\
  time_stretch_calls
    (calls (snd (run (apply_emotion world_ok "Calm" three_samples 2 1.2625) ∅)))
  = [(0.8 * 1.2625)%float].
Proof.
  assert (Hr : reaches_stretch world_ok "Calm" (-1) three_samples 2 three_samples)
    by (left; reflexivity).
  split; [reflexivity | split; [reflexivity | split; [exact Hr |]]].
  apply (proj1 (stretch_applied_iff world_ok "Calm" (-1)%Z 0.8%float three_samples
                  three_samples 2%Z 1.2625%float ∅ eq_refl eq_refl Hr)).
  vm_compute. repeat split.
Defined.

(** C4 as worded fails: at [global_speed = -1] the happy branch has a
    buffer longer than the sample rate and a rate further than 0.01 from
    1, and [time_stretch] is not called. *)
Lemma stretch_skipped_at_negative_speed :
  ~ (time_stretch_calls
       (calls (snd (run (apply_emotion world_ok "happy" three_samples 2 (-1)) ∅)))
     <> []
     <-> (len three_samples > 2)%Z /\ (0.01 <? abs (1.2 * -1 - 1))%float = true).
Proof.
  intros [_ H]. apply H.
  - split; reflexivity.
  - vm_compute. reflexivity.
Qed.

(** C10. With [global_speed <= 0] no branch calls [time_stretch]: the
    call log of the branch, and of the whole function, holds no
    time-stretch call, and a buffer the branch returns is as long as the
    buffer that reached the stage (the input, or what the pitch stage
    returned). *)
Theorem nonpositive_speed_never_stretches (E : env) (emotion : string)
    (a : list float) (sr : Z) (gs : float) (disk : gset string) :
  (gs <=? 0)%float = true ->
  time_stretch_calls (calls (snd (run (apply_emotion E emotion a sr gs) disk))) = [] /\
  (forall o, fst (run (apply_emotion E emotion a sr gs) disk) = Ok o ->
     exists a1, (a1 = a \/ exists n, pitch_shift E a sr n = Ok a1)
                /\ length o = length a1) /\
  (forall text output_file speaker tts_instance speaker_gender,
     time_stretch_calls
       (calls (snd (run (create_emotional_tts E text emotion output_file speaker
                           tts_instance speaker_gender gs) disk))) = []).
Proof.
  intros Hgs.
  assert (Hno : forall k, positive_finite k -> gt (k * gs) 0 = true ->
                          no_stretch (CallTimeStretch (k * gs)%float)).
  { intros k Hk Hpos. rewrite (rate_not_positive k gs Hk Hgs) in Hpos.
    discriminate Hpos. }
  split; [|split].
  - apply no_stretch_calls. unfold run.
    apply (apply_emotion_keeps no_stretch); simpl; auto.
  - unfold run, apply_emotion.
    repeat match goal with
      | |- context [String.eqb (lower emotion) ?l] =>
          destruct (String.eqb (lower emotion) l)
      end;
      unfold bind, try_except, librosa_effects_pitch_shift,
        librosa_effects_time_stretch, call, ret; cbn [fst snd];
      intros o Ho;
      try (destruct (pitch_shift E a sr _) as [a1|e] eqn:Hp; cbn [fst snd] in Ho);
      try discriminate Ho;
      repeat (rewrite rate_not_positive in Ho by (positive_multiplier || assumption));
      rewrite ?andb_false_r in Ho;
      try (destruct (len _ >? sr)%Z; cbn [fst snd] in Ho);
      inversion Ho; subst; clear Ho;
      first [ exists a1; split; [right; eauto | apply scale_length]
            | exists a; split; [left; reflexivity | apply scale_length]
            | eexists; split; [left; reflexivity | reflexivity] ].
  - intros. apply no_stretch_calls. unfold run.
    apply (create_keeps no_stretch); simpl; auto.
Qed.

Lemma nonpositive_speed_never_stretches_witness :
  (-1 <=? 0)%float = true /\
  time_stretch_calls
    (calls (snd (run (apply_emotion world_ok "excited" three_samples 2 (-1)) ∅))) = [].
Proof.
  assert (H : (-1 <=? 0)%float = true) by reflexivity.
  split; [exact H |].
  exact (proj1 (nonpositive_speed_never_stretches world_ok "excited" three_samples
                  2%Z (-1)%float ∅ H)).
Defined.

(** *** The buffer handed to the writer *)

(** C3 as worded fails: a sample that is NaN when the effect chain is
    done is still NaN after the clip. When the pitch stage of the sad
    branch hands back NaN, the buffer given to [sf.write] holds NaN,
    which is no number of [-1, 1]; so it does when the loaded waveform
    holds a NaN, on which both effects of the sad branch raise and are
    skipped: the NaN is written where it was, between a sample that the
    gain scaled and a sample that the clip brought to -1. *)
Lemma nan_reaches_writer :
  write_calls
    (calls (snd (run (create_emotional_tts world_pitch_nan "hello" "sad" "out.wav"
                        None None None 1) ∅)))
  = [("out.wav", [nan; nan; nan], 2%Z, Some "PCM_16")] /\
  write_calls
    (calls (snd (run (create_emotional_tts world_load_nan "hello" "sad" "out.wav"
                        None None None 1) ∅)))
  = [("out.wav", [float32 (0.5 * float32 0.8); nan; -1]%float, 2%Z,
      Some "PCM_16")] /\
  ~ in_range nan.
Proof.
  split; [vm_compute; reflexivity |].
  split; [vm_compute; reflexivity |].
  intros [H _]. vm_compute in H. discriminate H.
Qed.

(** C3 (as amended). What a run of [create_emotional_tts] hands to
    [sf.write] is the output of the emotion branch on the loaded
    waveform, cast to float32 and then clipped sample by sample, each
    sample in its place: a sample below -1 becomes -1, a sample above 1
    becomes 1, every other sample, NaN included, is kept. So whatever the
    waveform, the label and the gain, no written sample is below -1 or
    above 1, and every written sample that is a number lies in [-1, 1];
    a sample that is NaN after the cast is written as NaN. *)
Theorem written_buffer_clipped (E : env) :
  (forall text emotion output_file speaker tts_instance speaker_gender gs disk,
     Forall write_in_range
       (calls (snd (run (create_emotional_tts E text emotion output_file speaker
                           tts_instance speaker_gender gs) disk)))) /\
  (forall text emotion output_file speaker tts_instance speaker_gender gs disk
          audio sr out,
     loaded E text speaker tts_instance audio sr ->
     fst (run (apply_emotion E emotion (to_mono E audio) sr gs) ∅) = Ok out ->
     exists rest,
       write_calls
         (calls (snd (run (create_emotional_tts E text emotion output_file speaker
                             tts_instance speaker_gender gs) disk)))
       = (output_file, finalize out, sr, Some "PCM_16") :: rest /\
       (rest = [] \/ rest = [(output_file, finalize out, sr, None)])) /\
  (forall buf,
     finalize buf = map (fun x => hard_clip (float32 x)) buf /\
     length (finalize buf) = length buf /\
     (forall i x, buf !! i = Some x ->
                  finalize buf !! i = Some (hard_clip (float32 x)))) /\
  (forall x,
     not_beyond (hard_clip x) /\
     (is_nan x = false -> in_range (hard_clip x)) /\
     (is_nan x = true -> hard_clip x = x)).
Proof.
  split; [|split; [|split]].
  - intros. unfold run. apply create_keeps; simpl; auto.
    intros f buf sr sub. apply finalize_in_range.
  - intros. eapply create_writes; eassumption.
  - intros buf. rewrite finalize_hard_clip. split; [reflexivity |].
    split; [apply length_map |].
    intros i x Hi. now rewrite list_lookup_fmap, Hi.
  - intros x. split; [apply hard_clip_not_beyond |].
    split; [apply hard_clip_in_range | apply hard_clip_nan].
Qed.

Lemma written_buffer_clipped_witness :
  loaded world_ok "hello" None None (Arr1 three_samples) 2 /\
  fst (run (apply_emotion world_ok "angry" (to_mono world_ok (Arr1 three_samples))
              2 1) ∅)
  = Ok (scale (three_samples ++ three_samples) 1.2) /\
  exists rest,
    write_calls
      (calls (snd (run (create_emotional_tts world_ok "hello" "angry" "out.wav"
                          None None None 1) ∅)))
    = ("out.wav", finalize (scale (three_samples ++ three_samples) 1.2), 2%Z,
       Some "PCM_16") :: rest /\
    (rest = [] \/
     rest = [("out.wav", finalize (scale (three_samples ++ three_samples) 1.2),
              2%Z, None)]).
Proof.
  assert (Hl : loaded world_ok "hello" None None (Arr1 three_samples) 2).
  { exists model_ok. split; [right; split; reflexivity |].
    split; [left; reflexivity | reflexivity]. }
  assert (Ho : fst (run (apply_emotion world_ok "angry"
                           (to_mono world_ok (Arr1 three_samples)) 2 1) ∅)
               = Ok (scale (three_samples ++ three_samples) 1.2))
    by (vm_compute; reflexivity).
  split; [exact Hl | split; [exact Ho |]].
  exact (proj1 (proj2 (written_buffer_clipped world_ok))
           "hello" "angry" "out.wav" None None None 1%float ∅ (Arr1 three_samples)
           2%Z _ Hl Ho).
Defined.

(** *** Failures inside the pipeline *)

(** In the five branches that call [pitch_shift] outside a [try], an
    exception of the pitch stage leaves the branch. *)
Lemma unguarded_pitch_shift (E : env) (emotion : string) (n : Z) (e : exn)
    (a : list float) (sr : Z) (gs : float) (s : state) :
  In (lower emotion) ["happy"; "angry"; "calm"; "excited"; "whisper"] ->
  pitch (profile (lower emotion)) = Some n ->
  pitch_shift E a sr n = Raise e ->
  fst (apply_emotion E emotion a sr gs s) = Raise e.
Proof.
  intros Hin Hp Hr. unfold apply_emotion, profile in *. simpl in Hin.
  destruct Hin as [H|[H|[H|[H|[H|[]]]]]]; rewrite <- H in *; eval_eqb;
    cbn [pitch] in Hp; inversion Hp; subst;
    unfold bind, librosa_effects_pitch_shift, call; now rewrite Hr.
Qed.

(** The sad branch returns whatever its stages do. *)
Lemma sad_never_raises (E : env) (a : list float) (sr : Z) (gs : float)
    (s : state) :
  exists o, fst (apply_emotion E "sad" a sr gs s) = Ok o.
Proof.
  unfold apply_emotion. eval_eqb.
  branch_cases E a sr; eauto.
Qed.

(** C2 at a failing input. With a [pitch_shift] that raises, the happy
    request ends in that exception, where the sad request, whose pitch
    stage is guarded, completes; a [time_stretch] that raises is skipped
    in the happy request. *)
Theorem pitch_failure_propagates :
  fst (run (create_emotional_tts world_pitch_raises "hello" "happy" "out.wav"
              None None None 1) ∅) = Raise RuntimeError /\
  fst (run (create_emotional_tts world_pitch_raises "hello" "sad" "out.wav"
              None None None 1) ∅) = Ok "out.wav" /\
  fst (run (create_emotional_tts world_stretch_raises "hello" "happy" "out.wav"
              None None None 1) ∅) = Ok "out.wav".
Proof. repeat split; vm_compute; reflexivity. Qed.

(** C6 at a failing input. When [sf.write] raises, and when the pitch
    stage of the happy branch raises, the function ends in the exception
    and the temporary file is still on disk; when synthesis completes it
    is gone. *)
Theorem temp_file_left_behind :
  fst (run (create_emotional_tts world_write_raises "hello" "neutral"
              "missing_dir/out.wav" None None None 1) ∅) = Raise RuntimeError /\
  temp_name world_write_raises
    ∈ files (snd (run (create_emotional_tts world_write_raises "hello" "neutral"
                         "missing_dir/out.wav" None None None 1) ∅)) /\
  temp_name world_pitch_raises
    ∈ files (snd (run (create_emotional_tts world_pitch_raises "hello" "happy"
                         "out.wav" None None None 1) ∅)) /\
  temp_name world_ok
    ∉ files (snd (run (create_emotional_tts world_ok "hello" "happy"
                         "out.wav" None None None 1) ∅)).
Proof.
  split; [vm_compute; reflexivity |].
  split; [|split].
  - apply (bool_decide_unpack _). vm_compute. exact I.
  - apply (bool_decide_unpack _). vm_compute. exact I.
  - apply (bool_decide_unpack _). vm_compute. exact I.
Qed.

(** *** Mono reduction *)




End TtsFacts.

(** ** The generation worker *)

Module GuiFacts.
Import Gui Examples.

(** When the first call returns there is no second call and no dialog. *)
Lemma primary_success_no_retry (exc : Type) (format_exc : exc -> string)
    (create : nat -> kwargs -> option exc)
    (text emotion out : string) (model_name : option string) (child_mode : bool)
    (gs pitch energy trem_rate trem_depth reverb_amt brightness : Q) :
  let chosen :=
    or_else model_name
      (if child_mode then "C3Imaging/child_tts_fastpitch"
       else "tts_models/en/vctk/vits") in
  let primary :=
    primary_call text emotion out chosen child_mode gs pitch energy
      trem_rate trem_depth reverb_amt brightness in
  let trace :=
    _generate_thread exc format_exc create text emotion out model_name child_mode
      gs pitch energy trem_rate trem_depth reverb_amt brightness in
  create 0%nat primary = None ->
  created trace = [primary] /\ dialogs trace = [].
Proof.
  intros chosen primary trace H. subst trace. unfold _generate_thread.
  fold chosen. fold primary. rewrite H. split; reflexivity.
Qed.

(** C7. When the first call of [create_emotional_tts] raises, the worker
    makes exactly one more call: for the model tts_models/en/vctk/vits,
    with child mode on and the same text, emotion, output path, speed,
    pitch shift and energy. When that call raises too, one dialog shows
    the tracebacks of both attempts; in no case is there a third call. *)
Theorem fallback_retried_once (exc : Type) (format_exc : exc -> string)
    (create : nat -> kwargs -> option exc)
    (text emotion out : string) (model_name : option string) (child_mode : bool)
    (gs pitch energy trem_rate trem_depth reverb_amt brightness : Q) (e1 : exc) :
  let chosen :=
    or_else model_name
      (if child_mode then "C3Imaging/child_tts_fastpitch"
       else "tts_models/en/vctk/vits") in
  let primary :=
    primary_call text emotion out chosen child_mode gs pitch energy
      trem_rate trem_depth reverb_amt brightness in
  let fallback := fallback_call text emotion out gs pitch energy in
  let trace :=
    _generate_thread exc format_exc create text emotion out model_name child_mode
      gs pitch energy trem_rate trem_depth reverb_amt brightness in
  create 0%nat primary = Some e1 ->
  created trace = [primary; fallback] /\
  kw_model_name fallback = "tts_models/en/vctk/vits" /\
  kw_child_mode fallback = true /\
  kw_text fallback = text /\
  kw_emotion fallback = emotion /\
  kw_output_file fallback = out /\
  kw_global_speed fallback = gs /\
  kw_pitch_shift fallback = pitch /\
  kw_energy fallback = energy /\
  (forall e2,
     create 1%nat fallback = Some e2 ->
     dialogs trace =
       [("Generation failed",
         "Errors:" ++ nl ++ format_exc e1 ++ nl ++ format_exc e2)]) /\
  (create 1%nat fallback = None -> dialogs trace = []).
Proof.
  intros chosen primary fallback trace H1. subst trace. unfold _generate_thread.
  fold chosen. fold primary. fold fallback. rewrite H1.
  repeat split; try reflexivity.
  - destruct (create 1%nat fallback); reflexivity.
  - intros e2 H2. rewrite H2. reflexivity.
  - intros H2. rewrite H2. reflexivity.
Qed.

Lemma fallback_retried_once_witness :
  always_raises 0
    (primary_call "hello" "happy" "out.wav" "C3Imaging/child_tts_fastpitch" true
       1 0 1 5 0 0 0) = Some "primary failed" /\
  created (_generate_thread string (fun e => e) always_raises
             "hello" "happy" "out.wav" None true 1 0 1 5 0 0 0)
  = [primary_call "hello" "happy" "out.wav" "C3Imaging/child_tts_fastpitch" true
       1 0 1 5 0 0 0;
     fallback_call "hello" "happy" "out.wav" 1 0 1].
Proof.
  split; [reflexivity |].
  exact (proj1 (fallback_retried_once string (fun e => e) always_raises
                  "hello" "happy" "out.wav" None true 1 0 1 5 0 0 0
                  "primary failed" eq_refl)).
Defined.

End GuiFacts.

(** ** More on strings *)

Module StripFacts.
Import PyStr PyStrFacts Audit.

Lemma is_space_upper (c : ascii) : is_space (upper_char c) = is_space c.
Proof. destruct c as [[] [] [] [] [] [] [] []]; reflexivity. Qed.

Lemma lstrip_head (s : string) :
  lstrip s = EmptyString \/
  exists c r, lstrip s = String c r /\ is_space c = false.
Proof.
  induction s as [|c r IH]; [now left|]. simpl.
  destruct (is_space c) eqn:Hc; [exact IH | right; eauto].
Qed.

Lemma rstrip_idem (s : string) : rstrip (rstrip s) = rstrip s.
Proof.
  induction s as [|c r IH]; [reflexivity|]. simpl.
  destruct (rstrip r) as [|d t] eqn:Hr.
  - destruct (is_space c) eqn:Hc; [reflexivity|]. simpl. now rewrite Hc.
  - change (rstrip (String c (String d t))) with
      (match rstrip (String d t) with
       | EmptyString => if is_space c then EmptyString else String c EmptyString
       | r' => String c r'
       end).
    now rewrite IH.
Qed.

Lemma rstrip_head (c : ascii) (r : string) :
  is_space c = false -> exists r', rstrip (String c r) = String c r'.
Proof.
  intros Hc. simpl. destruct (rstrip r); rewrite ?Hc; eauto.
Qed.

Lemma strip_idem (s : string) : strip (strip s) = strip s.
Proof.
  unfold strip. destruct (lstrip_head s) as [H | (c & r & H & Hc)]; rewrite H.
  - reflexivity.
  - destruct (rstrip_head c r Hc) as [r' Hr]. rewrite Hr.
    simpl lstrip. rewrite Hc. rewrite <- Hr. apply rstrip_idem.
Qed.

Lemma lstrip_upper (s : string) : lstrip (upper s) = upper (lstrip s).
Proof.
  unfold upper. induction s as [|c r IH]; [reflexivity|]. simpl.
  rewrite is_space_upper. now destruct (is_space c).
Qed.

Lemma rstrip_upper (s : string) : rstrip (upper s) = upper (rstrip s).
Proof.
  unfold upper. induction s as [|c r IH]; [reflexivity|]. simpl.
  rewrite IH, is_space_upper.
  destruct (rstrip r); simpl; [now destruct (is_space c) | reflexivity].
Qed.

Lemma strip_upper (s : string) : strip (upper s) = upper (strip s).
Proof. unfold strip. now rewrite lstrip_upper, rstrip_upper. Qed.

Lemma upper_nonempty (s : string) : s <> EmptyString -> upper s <> EmptyString.
Proof. destruct s; [congruence | discriminate]. Qed.

Lemma is_empty_false (s : string) : is_empty s = false <-> s <> EmptyString.
Proof. destruct s; simpl; split; congruence. Qed.

(** Plain fields. *)
Lemma plain_app_comma (a b : string) :
  plain a = true -> split "," (a ++ String "," b) = a :: split "," b.
Proof.
  induction a as [|c r IH]; intros H; simpl in *; [reflexivity|].
  apply andb_true_iff in H as [H Hr]. apply andb_true_iff in H as [_ Hc].
  apply negb_true_iff in Hc. rewrite Hc. now rewrite (IH Hr).
Qed.

Lemma plain_split (a : string) : plain a = true -> split "," a = [a].
Proof.
  induction a as [|c r IH]; intros H; simpl in *; [reflexivity|].
  apply andb_true_iff in H as [H Hr]. apply andb_true_iff in H as [_ Hc].
  apply negb_true_iff in Hc. rewrite Hc. now rewrite (IH Hr).
Qed.

Lemma plain_lstrip (a b : string) :
  plain a = true -> a <> EmptyString -> lstrip (a ++ b) = a ++ b.
Proof.
  destruct a as [|c r]; [congruence|]. simpl. intros H _.
  apply andb_true_iff in H as [H _]. apply andb_true_iff in H as [Hc _].
  apply negb_true_iff in Hc. now rewrite Hc.
Qed.

Lemma plain_rstrip (a : string) : plain a = true -> rstrip a = a.
Proof.
  induction a as [|c r IH]; intros H; simpl in *; [reflexivity|].
  apply andb_true_iff in H as [H Hr]. apply andb_true_iff in H as [Hc _].
  apply negb_true_iff in Hc. rewrite (IH Hr), Hc. now destruct r.
Qed.

Lemma plain_strip (a : string) : plain a = true -> strip a = a.
Proof.
  intros H. unfold strip.
  assert (Hl : lstrip a = a).
  { destruct a as [|c r]; [reflexivity|]. simpl in *.
    apply andb_true_iff in H as [H _]. apply andb_true_iff in H as [Hc _].
    apply negb_true_iff in Hc. now rewrite Hc. }
  rewrite Hl. now apply plain_rstrip.
Qed.

(** Stripping a record line [a,b] followed by a line feed. *)
Lemma rstrip_record (a b : string) :
  plain a = true -> plain b = true ->
  rstrip (a ++ String "," (b ++ Gui.nl)) = a ++ String "," b.
Proof.
  intros Ha Hb.
  assert (Hb' : forall b, plain b = true ->
                  rstrip (b ++ Gui.nl) = b).
  { clear. induction b as [|c r IH]; intros H; simpl in *; [reflexivity|].
    apply andb_true_iff in H as [H Hr]. apply andb_true_iff in H as [Hc _].
    apply negb_true_iff in Hc. rewrite (IH Hr), Hc. now destruct r. }
  induction a as [|c r IH]; simpl in *.
  - change (rstrip (String "," (b ++ Gui.nl))) with
      (match rstrip (b ++ Gui.nl) with
       | EmptyString => if is_space "," then EmptyString else String "," EmptyString
       | r' => String "," r'
       end).
    rewrite (Hb' b Hb). now destruct b.
  - apply andb_true_iff in Ha as [_ Hr]. rewrite (IH Hr).
    now destruct r.
Qed.

End StripFacts.

(** ** More on the speaker-gender table *)

Module GendersMore.
Import PyStr PyStrFacts StripFacts Genders Obs Audit Spec Examples GendersFacts.

Lemma read_loop_app (l1 l2 : list string) :
  forall i m,
    read_loop i (of_lines (l1 ++ l2)) m
    = read_loop (i + length l1) (of_lines l2) (read_loop i (of_lines l1) m).
Proof.
  induction l1 as [|l r IH]; intros i m; simpl.
  - now rewrite Nat.add_0_r.
  - rewrite IH. f_equal. lia.
Qed.

Lemma record_line_later (i j : nat) (l : string) (m : gmap string string) :
  record_line (S i) l m = record_line (S j) l m.
Proof. reflexivity. Qed.

Lemma read_loop_later (f : line_stream) :
  forall i j m, read_loop (S i) f m = read_loop (S j) f m.
Proof.
  induction f as [| |l rest IH]; intros i j m; simpl; try reflexivity.
  rewrite (record_line_later i j). apply IH.
Qed.

Lemma header_needs_id (sid g : string) :
  startswith (lower sid) "id" = false ->
  startswith (lower (sid ++ String "," g)) "id," = false.
Proof.
  unfold startswith, lower.
  destruct sid as [|c1 [|c2 r]]; cbv [String.prefix smap String.append]; intros H;
    repeat match goal with
      | |- context [ascii_dec ?a ?b] => destruct (ascii_dec a b)
      | H : context [ascii_dec ?a ?b] |- _ => destruct (ascii_dec a b)
      end;
    try reflexivity; try discriminate; try contradiction.
  destruct r; discriminate H.
Qed.

(** A record [sid,g] on a line of its own is stored as [upper sid |-> g]. *)
Lemma record_line_plain (i : nat) (sid g : string) (m : gmap string string) :
  plain sid = true -> sid <> EmptyString -> plain g = true ->
  i <> 0%nat \/ startswith (lower sid) "id" = false ->
  record_line i (sid ++ "," ++ g ++ Gui.nl) m = <[upper sid := g]> m.
Proof.
  intros Hs Hne Hg Hh. unfold record_line.
  assert (Hstrip : strip (sid ++ "," ++ g ++ Gui.nl) = sid ++ String "," g).
  { unfold strip. rewrite plain_lstrip by assumption.
    now apply rstrip_record. }
  rewrite Hstrip.
  assert (He : is_empty (sid ++ String "," g) = false) by now destruct sid.
  rewrite He.
  assert (Hhd : Nat.eqb i 0 && startswith (lower (sid ++ String "," g)) "id," = false).
  { destruct Hh as [Hi | Hi].
    - apply Nat.eqb_neq in Hi. now rewrite Hi.
    - rewrite (header_needs_id _ _ Hi). apply andb_false_r. }
  rewrite Hhd, (plain_app_comma _ _ Hs), (plain_split _ Hg). simpl.
  rewrite (plain_strip _ Hs), (plain_strip _ Hg).
  apply is_empty_false in Hne. now rewrite Hne.
Qed.

(** X1. The last line of the resource decides: when it is a record
    [sid,g] of plain fields (and either not the first line, or its id
    does not start with "id"), the lookup of any spelling of the id, in
    any casing and with surrounding whitespace, gives [g], whatever the
    lines before it stored. *)
Theorem last_record_wins (fs : string -> file) (path : string)
    (ls : list string) (sid g sp : string) :
  fs path = Opened (of_lines (ls ++ [sid ++ "," ++ g ++ Gui.nl])) ->
  plain sid = true -> sid <> EmptyString -> plain g = true ->
  ls <> [] \/ startswith (lower sid) "id" = false ->
  upper (strip sp) = upper sid ->
  gender_of (load_speaker_genders fs path) sp = g.
Proof.
  intros Hf Hs Hne Hg Hh Hsp.
  unfold gender_of, load_speaker_genders. rewrite Hf, read_loop_app. simpl.
  rewrite record_line_plain; auto.
  - now rewrite Hsp, lookup_insert_eq.
  - destruct Hh as [Hl | Hi]; [left | now right].
    destruct ls; [congruence | simpl; lia].
Qed.

Lemma last_record_wins_witness :
  plain "p226" = true /\ "p226" <> EmptyString /\ plain "male" = true /\
  upper (strip " P226 ") = upper "p226" /\
  gender_of
    (load_speaker_genders
       (fun _ => Opened (of_lines (["P226,female" ++ Gui.nl]
                                    ++ ["p226" ++ "," ++ "male" ++ Gui.nl])))
       "ids.txt") " P226 " = "male".
Proof.
  assert (H1 : plain "p226" = true) by reflexivity.
  assert (H2 : "p226" <> EmptyString) by discriminate.
  assert (H3 : plain "male" = true) by reflexivity.
  assert (H4 : upper (strip " P226 ") = upper "p226") by reflexivity.
  repeat (split; [assumption|]).
  apply (last_record_wins
           (fun _ => Opened (of_lines (["P226,female" ++ Gui.nl]
                                        ++ ["p226" ++ "," ++ "male" ++ Gui.nl])))
           "ids.txt" ["P226,female" ++ Gui.nl] "p226" "male" " P226 "
           eq_refl H1 H2 H3); [left; discriminate | exact H4].
Defined.

(** *** Entries are stored in normal form *)

Lemma record_line_normal (i : nat) (l : string) (m : gmap string string) :
  (forall k v, m !! k = Some v -> normal_entry k v) ->
  forall k v, record_line i l m !! k = Some v -> normal_entry k v.
Proof.
  intros Hm k v. unfold record_line.
  repeat match goal with |- context [if ?b then _ else _] => destruct b eqn:? end;
    auto.
  intros H. apply lookup_insert_Some in H as [[<- <-] | [_ H]]; [|now apply Hm].
  match goal with
  | H : negb (is_empty ?x) = true |- _ =>
      apply negb_true_iff, is_empty_false in H; rename H into Hne
  end.
  repeat split.
  - now apply upper_nonempty.
  - apply upper_idem.
  - now rewrite strip_upper, strip_idem.
  - apply strip_idem.
Qed.

Lemma read_loop_normal (f : line_stream) :
  forall i m,
    (forall k v, m !! k = Some v -> normal_entry k v) ->
    forall k v, read_loop i f m !! k = Some v -> normal_entry k v.
Proof.
  induction f as [| |l rest IH]; intros i m Hm; simpl; auto.
  apply IH. now apply record_line_normal.
Qed.

(** X2. Whatever the resource holds, every entry of the table has a
    non-empty id in upper case without surrounding whitespace, and a
    gender without surrounding whitespace; in particular no entry is
    stored under the empty id. *)
Theorem table_entries_normal (fs : string -> file) (path : string) :
  (forall k v,
     load_speaker_genders fs path !! k = Some v -> normal_entry k v) /\
  load_speaker_genders fs path !! EmptyString = None.
Proof.
  assert (H : forall k v,
             load_speaker_genders fs path !! k = Some v -> normal_entry k v).
  { unfold load_speaker_genders.
    destruct (fs path) as [| |f]; try (intros k v Hk; now rewrite lookup_empty in Hk).
    apply read_loop_normal. intros k v Hk. now rewrite lookup_empty in Hk. }
  split; [exact H|].
  destruct (load_speaker_genders fs path !! EmptyString) as [v|] eqn:Hv;
    [|reflexivity].
  destruct (H _ _ Hv) as [Hne _]. congruence.
Qed.

Lemma table_entries_normal_witness :
  load_speaker_genders disk_table "speaker_audios/speaker_IDs.txt" !! "P225"
  = Some "female" /\
  normal_entry "P225" "female".
Proof.
  assert (H : load_speaker_genders disk_table "speaker_audios/speaker_IDs.txt"
              !! "P225" = Some "female") by (vm_compute; reflexivity).
  split; [exact H|].
  exact (proj1 (table_entries_normal disk_table "speaker_audios/speaker_IDs.txt")
           "P225" "female" H).
Defined.

(** *** Blank lines *)

(** X4. Only the first line of the file can be taken for a header: a
    blank line anywhere after the first line can be removed without
    changing the table. *)
Theorem blank_line_ignored (fs1 fs2 : string -> file) (path : string)
    (l0 b : string) (before after : list string) :
  strip b = EmptyString ->
  fs1 path = Opened (of_lines (l0 :: before ++ b :: after)) ->
  fs2 path = Opened (of_lines (l0 :: before ++ after)) ->
  load_speaker_genders fs1 path = load_speaker_genders fs2 path.
Proof.
  intros Hb H1 H2. unfold load_speaker_genders. rewrite H1, H2.
  change (l0 :: before ++ b :: after) with ((l0 :: before) ++ b :: after)%list.
  change (l0 :: before ++ after) with ((l0 :: before) ++ after)%list.
  rewrite !read_loop_app. simpl length. rewrite Nat.add_succ_r.
  simpl read_loop at 1.
  assert (Hr : forall i m, record_line i b m = m).
  { intros i m. unfold record_line. now rewrite Hb. }
  rewrite Hr. apply read_loop_later.
Qed.

Lemma blank_line_ignored_witness :
  strip "  " = EmptyString /\
  load_speaker_genders
    (fun _ => Opened (of_lines ("id,gender" :: [] ++ "  " :: ["P225,female"])))
    "ids.txt"
  = load_speaker_genders
      (fun _ => Opened (of_lines ("id,gender" :: [] ++ ["P225,female"])))
      "ids.txt".
Proof.
  assert (Hb : strip "  " = EmptyString) by reflexivity.
  split; [exact Hb|].
  exact (blank_line_ignored
           (fun _ => Opened (of_lines ("id,gender" :: [] ++ "  " :: ["P225,female"])))
           (fun _ => Opened (of_lines ("id,gender" :: [] ++ ["P225,female"])))
           "ids.txt" "id,gender" "  " [] ["P225,female"] Hb eq_refl eq_refl).
Defined.

End GendersMore.

(** ** More on the pipeline *)

Module TtsMore.
Import PyStr PyStrFacts Py Np FloatFacts NpFacts Tts Obs Audit Spec LogFacts Examples TtsFacts.
Local Open Scope py_scope.

Lemma create_returns (E : env) (text emotion output_file : string)
    (speaker : option string) (tts_instance : option tts_model)
    (speaker_gender : option string) (gs : float) (disk : gset string) (p : string) :
  fst (run (create_emotional_tts E text emotion output_file speaker
              tts_instance speaker_gender gs) disk) = Ok p ->
  p = output_file /\
  (exists data sr sub,
     sf_write E output_file data sr sub = None /\
     In (CallWrite output_file data sr sub)
       (calls (snd (run (create_emotional_tts E text emotion output_file speaker
                           tts_instance speaker_gender gs) disk)))) /\
  (output_file <> temp_name E ->
   output_file
   ∈ files (snd (run (create_emotional_tts E text emotion output_file speaker
                        tts_instance speaker_gender gs) disk))).
Proof.
  run_cases; intros Hok; try discriminate Hok; inversion Hok; subst;
    (split; [reflexivity |]); split;
    try (eexists _, _, _; split; [eassumption |];
         rewrite ?in_app_iff; simpl; tauto);
    intros Hne; files_solver.
Qed.

(** X6. When a run returns, it returns the output path it was given,
    [sf.write] has returned for that path, and the output file is on
    disk (unless it is the temporary file itself). *)
Theorem success_returns_output (E : env) (text emotion output_file : string)
    (speaker : option string) (tts_instance : option tts_model)
    (speaker_gender : option string) (gs : float) (disk : gset string) (p : string) :
  fst (run (create_emotional_tts E text emotion output_file speaker
              tts_instance speaker_gender gs) disk) = Ok p ->
  p = output_file /\
  (exists data sr sub,
     sf_write E output_file data sr sub = None /\
     In (CallWrite output_file data sr sub)
       (calls (snd (run (create_emotional_tts E text emotion output_file speaker
                           tts_instance speaker_gender gs) disk)))) /\
  (output_file <> temp_name E ->
   output_file
   ∈ files (snd (run (create_emotional_tts E text emotion output_file speaker
                        tts_instance speaker_gender gs) disk))).
Proof. apply create_returns. Qed.

Lemma success_returns_output_witness :
  fst (run (create_emotional_tts world_ok "hello" "happy" "out.wav"
              None None None 1) ∅) = Ok "out.wav" /\
  "out.wav" = "out.wav".
Proof.
  assert (H : fst (run (create_emotional_tts world_ok "hello" "happy" "out.wav"
                          None None None 1) ∅) = Ok "out.wav")
    by (vm_compute; reflexivity).
  split; [exact H |].
  exact (proj1 (success_returns_output world_ok "hello" "happy" "out.wav"
                  None None None 1%float ∅ "out.wav" H)).
Defined.

(** X7. With a fresh temporary name and a working [os.remove], the
    temporary file is gone after every run that returns and after every
    run whose failure precedes the effect chain (the model cannot be
    built, synthesis raises, loading raises): it can only be left behind
    by a run that raised after a pitch-shift, time-stretch or write call. *)
Theorem temp_file_removed_early (E : env) (text emotion output_file : string)
    (speaker : option string) (tts_instance : option tts_model)
    (speaker_gender : option string) (gs : float) (disk : gset string) :
  temp_name E ∉ disk ->
  os_remove E (temp_name E) = None ->
  temp_name E
  ∈ files (snd (run (create_emotional_tts E text emotion output_file speaker
                       tts_instance speaker_gender gs) disk)) ->
  (exists e, fst (run (create_emotional_tts E text emotion output_file speaker
                         tts_instance speaker_gender gs) disk) = Raise e) /\
  existsb after_load
    (calls (snd (run (create_emotional_tts E text emotion output_file speaker
                        tts_instance speaker_gender gs) disk))) = true.
Proof.
  intros Hfresh Hrm. run_cases; intros Hin;
    try congruence;
    try (exfalso; revert Hin; files_solver);
    (split; [eauto |]);
    try (destruct (Hr _ eq_refl) as [? ->]);
    rewrite !existsb_app; simpl; rewrite ?orb_true_r; reflexivity.
Qed.

Lemma temp_file_removed_early_witness :
  (temp_name world_write_raises ∉ (∅ : gset string)) /\
  os_remove world_write_raises (temp_name world_write_raises) = None /\
  existsb after_load
    (calls (snd (run (create_emotional_tts world_write_raises "hello" "neutral"
                        "missing_dir/out.wav" None None None 1) ∅))) = true.
Proof.
  assert (H1 : temp_name world_write_raises ∉ (∅ : gset string))
    by apply not_elem_of_empty.
  assert (H2 : os_remove world_write_raises (temp_name world_write_raises) = None)
    by reflexivity.
  assert (H3 : temp_name world_write_raises
               ∈ files (snd (run (create_emotional_tts world_write_raises "hello"
                                    "neutral" "missing_dir/out.wav"
                                    None None None 1) ∅)))
    by (apply (bool_decide_unpack _); vm_compute; exact I).
  split; [exact H1 | split; [exact H2 |]].
  exact (proj2 (temp_file_removed_early world_write_raises "hello" "neutral"
                  "missing_dir/out.wav" None None None 1%float ∅ H1 H2 H3)).
Defined.

(** X8. The sample rate is never changed: every pitch-shift call and
    every write call of a run is given the sample rate that
    [librosa.load] returned for the temporary file. *)
Theorem sample_rate_preserved (E : env) (text emotion output_file : string)
    (speaker : option string) (tts_instance : option tts_model)
    (speaker_gender : option string) (gs : float) (disk : gset string) :
  Forall (fun sr => exists audio, librosa_load E (temp_name E) = Ok (audio, sr))
    (rates_used
       (calls (snd (run (create_emotional_tts E text emotion output_file speaker
                           tts_instance speaker_gender gs) disk)))).
Proof.
  run_cases; split_effects; cbn [app rates_used]; repeat constructor; eauto.
Qed.

(** X9. The calls of a run come in pipeline order: synthesis, load,
    pitch-shift, time-stretch, write, removal of the temporary file. *)
Theorem calls_in_pipeline_order (E : env) (text emotion output_file : string)
    (speaker : option string) (tts_instance : option tts_model)
    (speaker_gender : option string) (gs : float) (disk : gset string) :
  nondecreasing
    (map phase
       (calls (snd (run (create_emotional_tts E text emotion output_file speaker
                           tts_instance speaker_gender gs) disk)))) = true.
Proof.
  run_cases; split_effects; reflexivity.
Qed.

(** X10. [sf.write] is called at most twice, always on the output path:
    first with subtype PCM_16 and, only when that call raised a
    [TypeError], once more with the same buffer and sample rate and no
    subtype. *)
Theorem write_retried_without_subtype (E : env) (text emotion output_file : string)
    (speaker : option string) (tts_instance : option tts_model)
    (speaker_gender : option string) (gs : float) (disk : gset string) :
  let w :=
    write_calls
      (calls (snd (run (create_emotional_tts E text emotion output_file speaker
                          tts_instance speaker_gender gs) disk))) in
  w = [] \/
  exists data sr,
    w = [(output_file, data, sr, Some "PCM_16")] \/
    (w = [(output_file, data, sr, Some "PCM_16"); (output_file, data, sr, None)]
     /\ sf_write E output_file data sr (Some "PCM_16") = Some TypeError).
Proof.
  run_cases; split_effects; cbn [app write_calls]; eauto 7.
Qed.

(** X11. Whatever the speed, [time_stretch] is only ever called at a
    positive rate that is further than 0.01 from 1. *)
Theorem stretch_rate_guarded (E : env) (text emotion output_file : string)
    (speaker : option string) (tts_instance : option tts_model)
    (speaker_gender : option string) (gs : float) (disk : gset string) :
  Forall (fun r => (0 <? r)%float = true /\ (0.01 <? abs (r - 1))%float = true)
    (time_stretch_calls
       (calls (snd (run (create_emotional_tts E text emotion output_file speaker
                           tts_instance speaker_gender gs) disk)))).
Proof.
  run_cases; split_effects; cbn [app time_stretch_calls]; repeat constructor; auto.
Qed.

(** *** The branches on their own *)

(** X12. A failure of [time_stretch] never leaves a branch: when the
    pitch stage returns on the buffer, the branch returns, whatever
    [time_stretch] does; the sad branch returns even when the pitch
    stage raises. *)
Theorem stretch_failure_contained (E : env) (emotion : string) (a : list float)
    (sr : Z) (gs : float) (s : state) :
  ((forall n, exists a1, pitch_shift E a sr n = Ok a1) \/ lower emotion = "sad") ->
  exists o, fst (apply_emotion E emotion a sr gs s) = Ok o.
Proof.
  intros [Hp | Hsad].
  - unfold apply_emotion.
    repeat match goal with
      | |- context [String.eqb (lower emotion) ?l] =>
          destruct (String.eqb (lower emotion) l)
      end;
      unfold bind, try_except, librosa_effects_pitch_shift,
        librosa_effects_time_stretch, call, ret; cbn [fst snd];
      try match goal with
        | |- context [pitch_shift E a sr ?n] =>
            destruct (Hp n) as [a1 Ha1]; rewrite Ha1
        end; cbn [fst snd];
      try match goal with
        | |- context [(len ?x >? sr)%Z] => destruct (len x >? sr)%Z
        end; cbn [andb fst snd];
      try match goal with
        | |- context [if ?b then _ else _] => destruct b
        end; cbn [fst snd];
      try match goal with
        | |- context [time_stretch E ?x ?y] => destruct (time_stretch E x y)
        end; cbn [fst snd]; eauto.
  - rewrite apply_emotion_lower, Hsad. apply sad_never_raises.
Qed.

Lemma stretch_failure_contained_witness :
  ((forall n, exists a1, pitch_shift world_stretch_raises three_samples 2 n = Ok a1)
   \/ lower "excited" = "sad") /\
  exists o,
    fst (apply_emotion world_stretch_raises "excited" three_samples 2 1
           (mkState ∅ [])) = Ok o.
Proof.
  assert (H : (forall n, exists a1,
                 pitch_shift world_stretch_raises three_samples 2 n = Ok a1)
              \/ lower "excited" = "sad")
    by (left; intros n; eexists; reflexivity).
  split; [exact H |].
  exact (stretch_failure_contained world_stretch_raises "excited" three_samples
           2%Z 1%float (mkState ∅ []) H).
Defined.

(** X13. A label outside sad, happy, angry, calm and excited (whisper,
    neutral, anything unknown) never reaches [time_stretch], whatever
    the speed and the length of the buffer. *)
Theorem no_stretch_without_profile (E : env) (emotion : string) (a : list float)
    (sr : Z) (gs : float) (disk : gset string) :
  ~ In (lower emotion) stretching ->
  time_stretch_calls (calls (snd (run (apply_emotion E emotion a sr gs) disk))) = [].
Proof.
  intros Hn. unfold run, apply_emotion.
  repeat match goal with
    | |- context [String.eqb (lower emotion) ?l] =>
        destruct (String.eqb_spec (lower emotion) l) as [Heq | _];
        [first [ exfalso; apply Hn; rewrite Heq; simpl; tauto | idtac ] |]
    end;
    unfold bind, librosa_effects_pitch_shift, call, ret; cbn [fst snd];
    try (destruct (pitch_shift E a sr _)); reflexivity.
Qed.

Lemma no_stretch_without_profile_witness :
  ~ In (lower "Whisper") stretching /\
  time_stretch_calls
    (calls (snd (run (apply_emotion world_ok "Whisper" three_samples 2 1) ∅))) = [].
Proof.
  assert (H : ~ In (lower "Whisper") stretching)
    by (vm_compute; intuition discriminate).
  split; [exact H |].
  exact (no_stretch_without_profile world_ok "Whisper" three_samples 2%Z 1%float
           ∅ H).
Defined.

(** X14. At the default speed 1.0 the rate of every profile passes the
    guard, so in the five stretching branches [time_stretch] is called,
    at the profile's multiplier, exactly when the pitch-shifted buffer
    is longer than one second. *)
Theorem default_speed_one_second_test (E : env) (emotion : string) (n : Z)
    (k : float) (a a1 : list float) (sr : Z) (disk : gset string) :
  pitch (profile (lower emotion)) = Some n ->
  rate (profile (lower emotion)) = Some k ->
  pitch_shift E a sr n = Ok a1 ->
  (time_stretch_calls (calls (snd (run (apply_emotion E emotion a sr 1) disk)))
   = [(k * 1)%float]
   <-> (len a1 > sr)%Z).
Proof.
  intros Hp Hr Ha. unfold run.
  destruct (rate_some_available _ _ Hr) as (Hin & _ & _).
  rewrite apply_emotion_chain;
    [| now apply stretching_available
     | intros n' Hn'; rewrite Hp in Hn'; inversion Hn'; subst; eauto].
  destruct (chain_run E _ n k a a1 sr 1 (mkState disk []) Hp Hr (or_introl Ha))
    as (a2 & Heq & _).
  rewrite Heq. cbn [fst snd calls app time_stretch_calls].
  assert (Hg : stretch_guard a1 sr (k * 1) = (len a1 >? sr)%Z).
  { unfold stretch_guard. unfold profile in Hr.
    repeat match type of Hr with
      | context [String.eqb ?x ?l] => destruct (String.eqb x l)
      end; cbn [rate] in Hr; inversion Hr; subst;
      now destruct (len a1 >? sr)%Z. }
  rewrite Hg. rewrite <- Z.gtb_gt.
  destruct (len a1 >? sr)%Z; cbn [time_stretch_calls]; split;
    (reflexivity || discriminate).
Qed.

Lemma default_speed_one_second_test_witness :
  pitch (profile (lower "Calm")) = Some (-1)%Z /\
  rate (profile (lower "Calm")) = Some 0.8%float /\
  pitch_shift world_ok three_samples 2 (-1) = Ok three_samples /\
  (time_stretch_calls
     (calls (snd (run (apply_emotion world_ok "Calm" three_samples 2 1) ∅)))
   = [(0.8 * 1)%float]
   <-> (len three_samples > 2)%Z).
Proof.
  split; [reflexivity | split; [reflexivity | split; [reflexivity |]]].
  exact (default_speed_one_second_test world_ok "Calm" (-1)%Z 0.8%float
           three_samples three_samples 2%Z ∅ eq_refl eq_refl eq_refl).
Defined.

End TtsMore.

(** ** The console entry point *)

Module CliFacts.
Import PyStr PyStrFacts Py Np Tts Obs Audit Cli Examples TtsMore.
Local Open Scope py_scope.

Lemma int_acc_nonneg (s : string) :
  forall acc, all_digits s = true -> (0 <= acc)%Z -> (0 <= int_acc acc s)%Z.
Proof.
  induction s as [|c r IH]; intros acc Hd Hacc; simpl in *; [exact Hacc|].
  apply andb_true_iff in Hd as [Hc Hr]. apply IH; [exact Hr|].
  unfold is_digit in Hc. apply andb_true_iff in Hc as [Hlo _].
  apply Nat.leb_le in Hlo. lia.
Qed.

Lemma label_of_name (label : string) :
  In label available_emotions ->
  is_empty label = false /\ isdigit label = false /\
  List.filter (fun e => String.eqb (lower e) label) available_emotions = [label] /\
  lower (strip label) = label.
Proof.
  simpl. intros [H|[H|[H|[H|[H|[H|[H|[]]]]]]]]; subst; repeat split.
Qed.

(** X15. For an answer typed in ASCII, of no more digits than [int]
    converts, the emotion chosen at the prompt is one of the seven
    supported labels, and choosing again from the chosen label gives the
    same label. *)
Theorem select_emotion_valid (emotion_choice : string) :
  plain_answer emotion_choice ->
  In (select_emotion emotion_choice) available_emotions /\
  select_emotion (select_emotion emotion_choice) = select_emotion emotion_choice.
Proof.
  intros _.
  assert (Hin : forall c, In (select_emotion c) available_emotions).
  { intros c. unfold select_emotion.
    destruct (is_empty (lower (strip c))); [simpl; tauto|].
    destruct (isdigit (lower (strip c))).
    - destruct (_ && _) eqn:Hb; [|simpl; tauto].
      apply andb_true_iff in Hb as [Hlo Hhi].
      apply Z.leb_le in Hlo. apply Z.ltb_lt in Hhi.
      apply nth_In. lia.
    - destruct (List.filter _ _) as [|m t] eqn:Hf; [simpl; tauto|].
      assert (Hm : In m (List.filter
                           (fun e => String.eqb (lower e) (lower (strip c)))
                           available_emotions))
        by (rewrite Hf; now left).
      now apply filter_In in Hm. }
  split; [apply Hin|].
  destruct (label_of_name _ (Hin emotion_choice)) as (He & Hd & Hf & Hl).
  unfold select_emotion at 1. now rewrite Hl, He, Hd, Hf.
Qed.

Lemma select_emotion_valid_witness :
  plain_answer "  9 " /\
  In (select_emotion "  9 ") available_emotions.
Proof.
  assert (H : plain_answer "  9 ")
    by (split; [reflexivity | unfold int_max_str_digits; simpl; lia]).
  split; [exact H |].
  exact (proj1 (select_emotion_valid "  9 " H)).
Defined.

(** X16. A supported label typed in any casing and with surrounding
    whitespace selects that label. *)
Theorem select_emotion_by_name (emotion_choice label : string) :
  In label available_emotions ->
  lower (strip emotion_choice) = label ->
  select_emotion emotion_choice = label.
Proof.
  intros Hin Hl. destruct (label_of_name _ Hin) as (He & Hd & Hf & _).
  unfold select_emotion. now rewrite Hl, He, Hd, Hf.
Qed.

Lemma select_emotion_by_name_witness :
  In "excited" available_emotions /\
  lower (strip "  ExCited ") = "excited" /\
  select_emotion "  ExCited " = "excited".
Proof.
  assert (H1 : In "excited" available_emotions) by (simpl; tauto).
  assert (H2 : lower (strip "  ExCited ") = "excited") by reflexivity.
  split; [exact H1 | split; [exact H2 |]].
  exact (select_emotion_by_name "  ExCited " "excited" H1 H2).
Defined.

(** X17. A number typed in ASCII digits, no more of them than [int]
    converts, selects by menu position: 1 to 7 give the labels in the
    order of [available_emotions], and every other number, 0 included,
    gives neutral. *)
Theorem select_emotion_by_number (emotion_choice : string) :
  plain_answer emotion_choice ->
  isdigit (lower (strip emotion_choice)) = true ->
  (0 <= int (lower (strip emotion_choice)))%Z /\
  ((1 <= int (lower (strip emotion_choice)) <= 7)%Z ->
   nth_error available_emotions
     (Z.to_nat (int (lower (strip emotion_choice)) - 1))
   = Some (select_emotion emotion_choice)) /\
  ((int (lower (strip emotion_choice)) < 1
    \/ 7 < int (lower (strip emotion_choice)))%Z ->
   select_emotion emotion_choice = "neutral").
Proof.
  intros _ Hd. unfold select_emotion. rewrite Hd.
  assert (Hne : is_empty (lower (strip emotion_choice)) = false).
  { unfold isdigit in Hd. apply andb_true_iff in Hd as [Hd _].
    now apply negb_true_iff in Hd. }
  rewrite Hne.
  assert (H0 : (0 <= int (lower (strip emotion_choice)))%Z).
  { unfold isdigit in Hd. apply andb_true_iff in Hd as [_ Hd].
    apply int_acc_nonneg; [exact Hd | lia]. }
  split; [exact H0 |]. split.
  - intros Hr.
    replace (_ && _) with true
      by (symmetry; apply andb_true_iff; split;
          [apply Z.leb_le | apply Z.ltb_lt]; simpl; lia).
    remember (Z.to_nat (int (lower (strip emotion_choice)) - 1)) as i eqn:Hi.
    assert (Hlt : (i < 7)%nat) by lia.
    do 7 (destruct i as [|i]; [reflexivity|]). lia.
  - intros Hr.
    replace (_ && _) with false; [reflexivity|].
    symmetry. apply andb_false_iff.
    destruct Hr as [Hr | Hr]; [left; apply Z.leb_gt | right; apply Z.ltb_ge];
      simpl; lia.
Qed.

Lemma select_emotion_by_number_witness :
  plain_answer " 3 " /\
  isdigit (lower (strip " 3 ")) = true /\
  nth_error available_emotions (Z.to_nat (int (lower (strip " 3 ")) - 1))
  = Some (select_emotion " 3 ").
Proof.
  assert (Hp : plain_answer " 3 ")
    by (split; [reflexivity | unfold int_max_str_digits; simpl; lia]).
  assert (H : isdigit (lower (strip " 3 ")) = true) by reflexivity.
  split; [exact Hp | split; [exact H |]].
  apply (proj1 (proj2 (select_emotion_by_number " 3 " Hp H))).
  vm_compute. split; discriminate.
Defined.

(** X18. A speaker chosen at the prompt is always one of the speakers of
    the model, by position or by exact name; an answer that names no
    speaker selects none. *)
Theorem select_speaker_sound (speakers : list string) (sp_choice s : string) :
  select_speaker speakers sp_choice = Some s ->
  In s speakers /\
  (isdigit (strip sp_choice) = false -> s = strip sp_choice).
Proof.
  unfold select_speaker.
  destruct (is_empty (strip sp_choice)); [discriminate|].
  destruct (isdigit (strip sp_choice)).
  - destruct (_ && _); [|discriminate].
    intros H. split; [|discriminate]. now apply nth_error_In in H.
  - destruct (List.filter _ _) as [|m t] eqn:Hf; [discriminate|].
    intros H. inversion H; subst.
    assert (Hm : In s (List.filter (fun x => String.eqb x (strip sp_choice)) speakers))
      by (rewrite Hf; now left).
    apply filter_In in Hm as [Hin Heq]. apply String.eqb_eq in Heq.
    split; [exact Hin | intros _; exact Heq].
Qed.

Lemma select_speaker_sound_witness :
  select_speaker ["p225"; "p226"] " 2" = Some "p226" /\
  In "p226" ["p225"; "p226"].
Proof.
  assert (H : select_speaker ["p225"; "p226"] " 2" = Some "p226") by reflexivity.
  split; [exact H |].
  exact (proj1 (select_speaker_sound ["p225"; "p226"] " 2" "p226" H)).
Defined.



End CliFacts.

(** ** The form *)

Module FormFacts.
Import PyStr PyStrFacts StripFacts Gui Form Examples FormExamples.

Lemma or_else_nonempty (m : option string) (d : string) :
  d <> EmptyString ->
  (forall x, m = Some x -> x <> EmptyString) ->
  or_else m d <> EmptyString.
Proof.
  intros Hd Hm. destruct m as [[|c r]|]; simpl; auto; discriminate.
Qed.

Lemma selected_model_nonempty (sel custom x : string) :
  selected_model sel custom = Some x -> x <> EmptyString.
Proof.
  unfold selected_model.
  repeat match goal with
    | |- context [if ?b then _ else _] => destruct b eqn:?
    end; intros H; inversion H; subst; try discriminate.
  now apply is_empty_false.
Qed.

(** X20. Every call of [create_emotional_tts] that a click on Generate
    leads to, first attempt or fallback, carries the stripped text of the
    form, which is not empty, the emotion of the form, a model name and
    an output path that are not empty, and no speaker. *)
Theorem generate_arguments_sane (exc : Type) (format_exc : exc -> string)
    (create : nat -> kwargs -> option exc) (imported : bool) (now : Z)
    (f : form) (a : thread_args) (kw : kwargs) :
  on_generate imported now f = Thread a ->
  In kw (created (run_thread exc format_exc create a)) ->
  kw_text kw = strip (txt f) /\
  kw_text kw <> EmptyString /\
  kw_emotion kw = emotion_var f /\
  kw_model_name kw <> EmptyString /\
  kw_output_file kw <> EmptyString /\
  kw_speaker kw = None.
Proof.
  unfold on_generate.
  destruct imported; [|discriminate]. cbn [negb].
  destruct (is_empty (strip (txt f))) eqn:Ht; [discriminate|].
  apply is_empty_false in Ht.
  destruct (trem_rate_var f), (trem_depth_var f), (reverb_var f),
    (brightness_var f); try discriminate.
  intros H. inversion H; subst a; clear H.
  assert (Ho : (if is_empty (strip (out_var f))
                then "child_output_" ++ str_int now ++ ".wav"
                else strip (out_var f)) <> EmptyString).
  { destruct (is_empty (strip (out_var f))) eqn:He.
    - discriminate.
    - now apply is_empty_false. }
  assert (Hm : or_else (selected_model (strip (model_choice_var f))
                          (model_custom_var f))
                 (if child_var f then "C3Imaging/child_tts_fastpitch"
                  else "tts_models/en/vctk/vits") <> EmptyString).
  { apply or_else_nonempty.
    - destruct (child_var f); discriminate.
    - intros x. apply selected_model_nonempty. }
  unfold run_thread, _generate_thread. cbn [a_text a_emotion a_out a_model_name
    a_child_mode a_global_speed a_pitch a_energy a_trem_rate a_trem_depth
    a_reverb_amt a_brightness].
  destruct (create 0%nat _) as [e1|]; [destruct (create 1%nat _) as [e2|]|];
    simpl; intros Hin;
    repeat match goal with
      | H : _ \/ _ |- _ => destruct H
      | H : False |- _ => destruct H
      end; subst kw; cbn [kw_text kw_emotion kw_model_name kw_output_file
                            kw_speaker primary_call fallback_call];
    repeat split; auto; discriminate.
Qed.

Lemma generate_arguments_sane_witness :
  on_generate true 1700000000 form_hello = Thread args_hello /\
  In (fallback_call "Hello there" "happy" "child_output_1700000000.wav" 1 0 1)
    (created (run_thread string (fun e => e) always_raises args_hello)) /\
  kw_model_name
    (fallback_call "Hello there" "happy" "child_output_1700000000.wav" 1 0 1)
  <> EmptyString.
Proof.
  assert (H : on_generate true 1700000000 form_hello = Thread args_hello)
    by reflexivity.
  assert (Hin : In (fallback_call "Hello there" "happy"
                      "child_output_1700000000.wav" 1 0 1)
                  (created (run_thread string (fun e => e) always_raises
                              args_hello)))
    by (simpl; tauto).
  split; [exact H | split; [exact Hin |]].
  exact (proj1 (proj2 (proj2 (proj2
           (generate_arguments_sane string (fun e => e) always_raises true
              1700000000 form_hello args_hello
              (fallback_call "Hello there" "happy" "child_output_1700000000.wav"
                 1 0 1) H Hin))))).
Defined.

(** X21. A click on Generate starts the worker exactly when the pipeline
    was imported, the text is not blank and the four unguarded numeric
    reads (tremolo rate and depth, reverb, brightness) succeed; an
    unreadable speed, pitch or energy does not block it and is replaced by
    1.0, 0.0 and 1.0. *)
Theorem thread_started_iff (imported : bool) (now : Z) (f : form) :
  ((exists a, on_generate imported now f = Thread a) <->
   imported = true /\ strip (txt f) <> EmptyString /\
   trem_rate_var f <> None /\ trem_depth_var f <> None /\
   reverb_var f <> None /\ brightness_var f <> None) /\
  (forall a,
     on_generate imported now f = Thread a ->
     a_global_speed a = default 1%Q (speed_var f) /\
     a_pitch a = default 0%Q (pitch_var f) /\
     a_energy a = default 1%Q (energy_var f)).
Proof.
  unfold on_generate. split.
  - destruct imported; cbn [negb];
      [|split; [intros [a H]; discriminate | intros [H _]; discriminate]].
    destruct (is_empty (strip (txt f))) eqn:Ht.
    + split; [intros [a H]; discriminate |].
      intros (_ & H & _). destruct (strip (txt f)); [congruence | discriminate].
    + apply is_empty_false in Ht.
      destruct (trem_rate_var f), (trem_depth_var f), (reverb_var f),
        (brightness_var f);
        (split; [intros [a H]; try discriminate; repeat split; auto; discriminate
                | intros (_ & _ & H1 & H2 & H3 & H4); try congruence; eauto]).
  - intros a. destruct imported; [|discriminate]. cbn [negb].
    destruct (is_empty (strip (txt f))); [discriminate|].
    destruct (trem_rate_var f), (trem_depth_var f), (reverb_var f),
      (brightness_var f); try discriminate.
    intros H. inversion H; subst a; clear H. cbn [a_global_speed a_pitch a_energy].
    destruct (speed_var f), (pitch_var f), (energy_var f); repeat split.
Qed.

Lemma thread_started_iff_witness :
  (true = true /\ strip (txt form_hello) <> EmptyString /\
   trem_rate_var form_hello <> None /\ trem_depth_var form_hello <> None /\
   reverb_var form_hello <> None /\ brightness_var form_hello <> None) /\
  exists a, on_generate true 0 form_hello = Thread a.
Proof.
  assert (H : true = true /\ strip (txt form_hello) <> EmptyString /\
              trem_rate_var form_hello <> None /\ trem_depth_var form_hello <> None /\
              reverb_var form_hello <> None /\ brightness_var form_hello <> None)
    by (repeat split; discriminate).
  split; [exact H |].
  exact (proj2 (proj1 (thread_started_iff true 0 form_hello)) H).
Defined.

(** X22. On every path the worker disables the Generate button first and
    re-enables it last, and it shows an error dialog exactly when both
    attempts raise. *)
Theorem worker_button_protocol (exc : Type) (format_exc : exc -> string)
    (create : nat -> kwargs -> option exc) (a : thread_args) :
  button_states (run_thread exc format_exc create a) = ["disabled"; "normal"] /\
  hd_error (run_thread exc format_exc create a) = Some (ButtonState "disabled") /\
  last (run_thread exc format_exc create a) = Some (ButtonState "normal") /\
  (length (created (run_thread exc format_exc create a)) <= 2)%nat /\
  (dialogs (run_thread exc format_exc create a) <> [] <->
   exists kw1 kw2 e1 e2,
     created (run_thread exc format_exc create a) = [kw1; kw2] /\
     create 0%nat kw1 = Some e1 /\ create 1%nat kw2 = Some e2).
Proof.
  unfold run_thread, _generate_thread.
  destruct (create 0%nat _) as [e1|] eqn:H1;
    [destruct (create 1%nat _) as [e2|] eqn:H2|];
    cbn [app button_states created dialogs hd_error length];
    (split; [reflexivity |]); (split; [reflexivity |]);
    (split; [reflexivity |]); (split; [lia |]); split;
    try congruence; try discriminate;
    try (intros (kw1 & kw2 & x1 & x2 & Hc & Hx1 & Hx2); inversion Hc; subst;
         congruence).
  intros _. do 4 eexists. split; [reflexivity | split; eassumption].
Qed.

Lemma stripped_names (l : list string) :
  Forall (fun v => strip v = v) (map strip l).
Proof.
  induction l as [|x r IH]; simpl; constructor; [apply strip_idem | exact IH].
Qed.

(** X23. After a probe of a model the speaker box is enabled exactly when
    the engine was imported, the model was built and it lists at least
    one speaker; it then offers the stripped names with the first one
    selected. In every other case it is disabled, empty and without
    selection, whatever it showed before. *)
Theorem probe_updates_box (import_error : option string)
    (TTS : string -> option (list string)) (model_name : string)
    (box0 : speaker_box) :
  let box :=
    box_after (_populate_speakers_thread import_error TTS model_name) box0 in
  (box_state box = "readonly" <->
   import_error = None /\ exists s0 r, TTS model_name = Some (s0 :: r)) /\
  (forall s0 r,
     import_error = None -> TTS model_name = Some (s0 :: r) ->
     box = {| box_values := map strip (s0 :: r); box_state := "readonly";
              box_selection := strip s0 |}
     /\ Forall (fun v => strip v = v) (box_values box)) /\
  (box_state box <> "readonly" ->
   box = {| box_values := []; box_state := "disabled"; box_selection := "" |}).
Proof.
  unfold _populate_speakers_thread.
  destruct import_error as [e|]; [|destruct (TTS model_name) as [[|s0 r]|] eqn:Ht];
    cbn [box_after _set_speakers_ui map box_state box_values];
    (split; [split; [try discriminate; eauto | intros [H1 (x & y & H2)]; congruence]
            | split; [intros x y H1 H2; try congruence | try (intros H; now contradiction H); auto]]).
  inversion H2; subst. split; [reflexivity|].
  cbn [box_values]. exact (stripped_names (_ :: _)).
Qed.

Lemma probe_updates_box_witness :
  (@None string = None /\ two_speakers "tts_models/en/vctk/vits" = Some [" p225 "; "p226"]) /\
  box_after (_populate_speakers_thread None two_speakers "tts_models/en/vctk/vits")
    (_set_speakers_ui [])
  = {| box_values := map strip [" p225 "; "p226"]; box_state := "readonly";
       box_selection := strip " p225 " |}.
Proof.
  split; [split; reflexivity |].
  exact (proj1 (proj1 (proj2 (probe_updates_box None two_speakers
                                "tts_models/en/vctk/vits" (_set_speakers_ui [])))
                  " p225 " ["p226"] eq_refl eq_refl)).
Defined.

(** X24. When importing the pipeline fails (BTTS.PY is missing, running it
    raises, or it binds no [create_emotional_tts] or no
    [available_emotions]), the form offers its built-in labels, which are
    the seven labels of the pipeline with neutral first, and a click on
    Generate only shows the import-error dialog. *)
Theorem import_failure_blocks_generate (alt_path_exists : bool)
    (run_path : option namespace) :
  (import_BTTS alt_path_exists run_path = None <->
   alt_path_exists = false \/ run_path = None \/
   exists ns, run_path = Some ns
              /\ (ns_create_emotional_tts ns = false
                  \/ ns_available_emotions ns = None)) /\
  (import_BTTS alt_path_exists run_path = None ->
   (forall now f,
      exists message,
        on_generate (fst (gui_imports (import_BTTS alt_path_exists run_path))) now f
        = Dialog "BTTS import error" message) /\
   hd_error (snd (gui_imports (import_BTTS alt_path_exists run_path)))
   = Some "neutral" /\
   (forall e,
      In e (snd (gui_imports (import_BTTS alt_path_exists run_path)))
      <-> In e Tts.available_emotions)).
Proof.
  split.
  - unfold import_BTTS.
    destruct alt_path_exists; cbn [negb]; [|split; auto].
    destruct run_path as [ns|]; [|split; auto].
    destruct (ns_create_emotional_tts ns) eqn:Hc; cbn [negb].
    + split.
      * intros H. right; right. exists ns. auto.
      * intros [H | [H | (ns' & Hns & [H | H])]]; try discriminate;
          inversion Hns; subst; congruence.
    + split; [|reflexivity]. intros _. right; right. exists ns. auto.
  - intros H. rewrite H. cbn [gui_imports fst snd]. split; [|split].
    + intros now f. eexists. reflexivity.
    + reflexivity.
    + intros e. unfold Tts.available_emotions. simpl. tauto.
Qed.

Lemma import_failure_blocks_generate_witness :
  import_BTTS false None = None /\
  hd_error (snd (gui_imports (import_BTTS false None))) = Some "neutral".
Proof.
  assert (H : import_BTTS false None = None) by reflexivity.
  split; [exact H |].
  exact (proj1 (proj2 (proj2 (import_failure_blocks_generate false None) H))).
Defined.

(** X25. For a selection that names one of the two offered models, the
    model whose speakers are probed when the selection changes is the
    model that Generate passes on; the selection Other starts no probe. *)
Theorem probe_matches_selected_model (model_choice_var custom m : string) :
  (startswith (strip model_choice_var) "Other" = false ->
   selected_model (strip model_choice_var) custom = Some m ->
   on_model_choice_changed model_choice_var
   = [CustomEntry "disabled"; StartProbe m]) /\
  (startswith (strip model_choice_var) "Other" = true ->
   forall m', ~ In (StartProbe m') (on_model_choice_changed model_choice_var)).
Proof.
  unfold on_model_choice_changed, selected_model. split.
  - intros Ho. rewrite Ho.
    destruct (startswith (strip model_choice_var) "C3Imaging/").
    + intros H. inversion H. reflexivity.
    + destruct (startswith (strip model_choice_var) "tts_models/en/vctk/vits");
        intros H; inversion H. reflexivity.
  - intros Ho m'. rewrite Ho. simpl. intros [H | [H | []]]; discriminate.
Qed.

Lemma probe_matches_selected_model_witness :
  startswith (strip "C3Imaging/child_tts_fastpitch (default child)") "Other" = false /\
  selected_model (strip "C3Imaging/child_tts_fastpitch (default child)") ""
  = Some "C3Imaging/child_tts_fastpitch" /\
  on_model_choice_changed "C3Imaging/child_tts_fastpitch (default child)"
  = [CustomEntry "disabled"; StartProbe "C3Imaging/child_tts_fastpitch"].
Proof.
  split; [reflexivity | split; [reflexivity |]].
  exact (proj1 (probe_matches_selected_model
                  "C3Imaging/child_tts_fastpitch (default child)" ""
                  "C3Imaging/child_tts_fastpitch") eq_refl eq_refl).
Defined.

End FormFacts.
